(** * Verification of the VCNL4010 proximity / ambient-light driver

    A shallow embedding of [adafruit_vcnl4010.py].  Python ints are [Z],
    the class-level [bytearray(3)] scratch buffer is a [list byte], the
    I2C device behind [adafruit_bus_device.i2c_device.I2CDevice] is an
    abstract state machine ([Bus]), and every driver method is a
    computation in a small state-and-exception monad whose state (the
    [world]) survives a raised exception, as it does in Python.  *)

From Stdlib Require Import ZArith NArith List Bool Lia QArith.
From Stdlib Require Import Strings.Byte.
From Stdlib Require Import PrimInt63 Uint63 PrimFloat SpecFloat FloatOps.
Import ListNotations.

Local Open Scope Z_scope.

(** ** Bytes and Python integers *)

(** Reading an element of a [bytearray] yields an int in [0, 255]. *)
Definition int_of_byte (b : byte) : Z := Z.of_N (Byte.to_N b).

(** Storing an int into a [bytearray] succeeds only for [0 <= v < 256]. *)
Definition byte_of_int (v : Z) : option byte :=
  if 0 <=? v then Byte.of_N (Z.to_N v) else None.

(** Python truthiness of an int, as used by [if result & READY:]. *)
Definition truthy (v : Z) : bool := negb (v =? 0).

(** ** Exceptions and outcomes *)

Inductive exn : Type :=
| AssertionError
| RuntimeError
| ValueError
| IndexError.

(** A call returns a value, raises, or is still inside its [while True]
    loop when the iteration budget given to the model is used up. *)
Inductive result (A : Type) : Type :=
| Ok (a : A)
| Raise (e : exn)
| OutOfFuel.

Arguments Ok {A} a.
Arguments Raise {A} e.
Arguments OutOfFuel {A}.

(** ** The bus *)

(** One I2C transaction as seen on the wire. *)
Inductive transaction : Type :=
| Write (out : list byte)
| WriteThenRead (out : list byte) (inp : list byte).

(** The device at the other end of the bus.  [bus_write out d] is the
    device after the master wrote [out]; [bus_write_then_readinto out n d]
    is a write of [out] followed by a repeated-start read of [n] bytes:
    the device supplies byte [i] of the answer as [stream i].  Every
    transaction is acknowledged; bus failures ([OSError]) are outside the
    properties studied here. *)
Record Bus (D : Type) : Type := {
  bus_write : list byte -> D -> D;
  bus_write_then_readinto : list byte -> nat -> D -> (nat -> byte) * D
}.

Arguments bus_write {D} _ _ _.
Arguments bus_write_then_readinto {D} _ _ _ _.

(** ** Register map and user-facing constants *)

Definition _VCNL4010_I2CADDR_DEFAULT : Z := 0x13.
Definition _VCNL4010_COMMAND : Z := 0x80.
Definition _VCNL4010_PRODUCTID : Z := 0x81.
Definition _VCNL4010_PROXRATE : Z := 0x82.
Definition _VCNL4010_IRLED : Z := 0x83.
Definition _VCNL4010_AMBIENTPARAMETER : Z := 0x84.
Definition _VCNL4010_AMBIENTDATA : Z := 0x85.
Definition _VCNL4010_PROXIMITYDATA : Z := 0x87.
Definition _VCNL4010_INTCONTROL : Z := 0x89.
Definition _VCNL4010_PROXIMITYADJUST : Z := 0x8A.
Definition _VCNL4010_INTSTAT : Z := 0x8E.
Definition _VCNL4010_MODTIMING : Z := 0x8F.
Definition _VCNL4010_MEASUREAMBIENT : Z := 0x10.
Definition _VCNL4010_MEASUREPROXIMITY : Z := 0x08.
Definition _VCNL4010_AMBIENTREADY : Z := 0x40.
Definition _VCNL4010_PROXIMITYREADY : Z := 0x20.
Definition _VCNL4010_AMBIENT_LUX_SCALE : float := 0.25%float.

Definition SAMPLERATE_1_95 : Z := 0.
Definition SAMPLERATE_3_90625 : Z := 1.
Definition SAMPLERATE_7_8125 : Z := 2.
Definition SAMPLERATE_16_625 : Z := 3.
Definition SAMPLERATE_31_25 : Z := 4.
Definition SAMPLERATE_62_5 : Z := 5.
Definition SAMPLERATE_125 : Z := 6.
Definition SAMPLERATE_250 : Z := 7.

Definition FREQUENCY_3M125 : Z := 3.
Definition FREQUENCY_1M5625 : Z := 2.
Definition FREQUENCY_781K25 : Z := 1.
Definition FREQUENCY_390K625 : Z := 0.

(** [int * float]: the int operand is converted to a float first.  The
    conversion is exact below [2^53]; the driver only ever converts
    16-bit measurements. *)
Definition float_of_int (v : Z) : float :=
  if v <? 0 then PrimFloat.opp (PrimFloat.of_uint63 (Uint63.of_Z (- v)))
  else PrimFloat.of_uint63 (Uint63.of_Z v).

(** The exact rational value of a finite float. *)
Definition float_to_Q (f : float) : option Q :=
  match Prim2SF f with
  | S754_zero _ => Some 0%Q
  | S754_finite s m e =>
      Some ((if s then -1 else 1) * inject_Z (Z.pos m) * Qpower 2 e)%Q
  | S754_infinity _ => None
  | S754_nan => None
  end.

(** [float_is f q]: the float [f] is finite and its value is exactly the
    rational [q]. *)
Definition float_is (f : float) (q : Q) : bool :=
  match float_to_Q f with
  | Some q' => Qeq_bool q' q
  | None => false
  end.

(** [all_range k lo p]: [p] holds of every integer in [lo, lo + 2^k). *)
Fixpoint all_range (k : nat) (lo : Z) (p : Z -> bool) : bool :=
  match k with
  | O => p lo
  | S k' => all_range k' lo p && all_range k' (lo + 2 ^ Z.of_nat k') p
  end.

(** ** The driver *)

Section Driver.

Context {D : Type}.
Variable bus : Bus D.

(** What a method call can observe and change: the class-level scratch
    buffer, the device, and (ghost state) the transactions issued so far,
    oldest first. *)
Record world : Type := mkWorld {
  _BUFFER : list byte;
  device : D;
  log : list transaction
}.

Definition M (A : Type) : Type := world -> result A * world.

Definition ret {A} (a : A) : M A := fun w => (Ok a, w).

Definition bind {A B} (m : M A) (k : A -> M B) : M B :=
  fun w =>
    match m w with
    | (Ok a, w') => k a w'
    | (Raise e, w') => (Raise e, w')
    | (OutOfFuel, w') => (OutOfFuel, w')
    end.

Definition raise {A} (e : exn) : M A := fun w => (Raise e, w).

Definition out_of_fuel {A} : M A := fun w => (OutOfFuel, w).

(** [assert cond] *)
Definition assert (cond : bool) : M unit :=
  if cond then ret tt else raise AssertionError.

Notation "x <- m ;; k" := (bind m (fun x => k))
  (at level 61, m at next level, right associativity).
Notation "m ;; k" := (bind m (fun _ => k))
  (at level 61, right associativity).

(** [list.__setitem__] on an index known to be in range. *)
Fixpoint list_set {A} (i : nat) (x : A) (l : list A) : list A :=
  match l, i with
  | [], _ => []
  | _ :: t, O => x :: t
  | h :: t, S j => h :: list_set j x t
  end.

(** [self._BUFFER[i] = v] *)
Definition buffer_set (i : nat) (v : Z) : M unit :=
  fun w =>
    if (i <? length (_BUFFER w))%nat then
      match byte_of_int v with
      | Some b => (Ok tt, mkWorld (list_set i b (_BUFFER w)) (device w) (log w))
      | None => (Raise ValueError, w)
      end
    else (Raise IndexError, w).

(** [self._BUFFER[i]] *)
Definition buffer_get (i : nat) : M Z :=
  fun w =>
    match nth_error (_BUFFER w) i with
    | Some b => (Ok (int_of_byte b), w)
    | None => (Raise IndexError, w)
    end.

(** [i2c.write(self._BUFFER, end=end_)]: the bytes [_BUFFER[0:end_]] go
    out in one transaction. *)
Definition i2c_write (end_ : nat) : M unit :=
  fun w =>
    let out := firstn end_ (_BUFFER w) in
    (Ok tt, mkWorld (_BUFFER w) (bus_write bus out (device w))
                    (log w ++ [Write out])).

(** [i2c.write_then_readinto(self._BUFFER, self._BUFFER,
    out_end=out_end, in_start=in_start)]: [_BUFFER[0:out_end]] is
    written, then [_BUFFER[in_start:]] is filled from the device.  Both
    arguments are the same bytearray. *)
Definition i2c_write_then_readinto (out_end in_start : nat) : M unit :=
  fun w =>
    let out := firstn out_end (_BUFFER w) in
    let n := (length (_BUFFER w) - in_start)%nat in
    let '(stream, d') := bus_write_then_readinto bus out n (device w) in
    let inp := map stream (seq 0 n) in
    (Ok tt, mkWorld (firstn in_start (_BUFFER w) ++ inp) d'
                    (log w ++ [WriteThenRead out inp])).

(** *** Register primitives *)

Definition _read_u8 (address : Z) : M Z :=
  buffer_set 0 (Z.land address 0xFF) ;;
  i2c_write_then_readinto 1 1 ;;
  buffer_get 1.

Definition _read_u16BE (address : Z) : M Z :=
  buffer_set 0 (Z.land address 0xFF) ;;
  i2c_write_then_readinto 1 1 ;;
  hi <- buffer_get 1 ;;
  lo <- buffer_get 2 ;;
  ret (Z.lor (Z.shiftl hi 8) lo).

Definition _write_u8 (address val : Z) : M unit :=
  buffer_set 0 (Z.land address 0xFF) ;;
  buffer_set 1 (Z.land val 0xFF) ;;
  i2c_write 2.

(** *** Configuration accessors *)

Definition led_current : M Z :=
  b <- _read_u8 _VCNL4010_IRLED ;;
  ret (Z.land b 0x3F).

Definition set_led_current (val : Z) : M unit :=
  assert ((0 <=? val) && (val <=? 20)) ;;
  _write_u8 _VCNL4010_IRLED val.

Definition led_current_mA : M Z :=
  c <- led_current ;;
  ret (c * 10).

(** Python's [//] is floor division, as is [Z.div]. *)
Definition set_led_current_mA (val : Z) : M unit :=
  set_led_current (val / 10).

Definition samplerate : M Z :=
  _read_u8 _VCNL4010_PROXRATE.

Definition set_samplerate (val : Z) : M unit :=
  assert ((0 <=? val) && (val <=? 7)) ;;
  _write_u8 _VCNL4010_PROXRATE val.

Definition frequency : M Z :=
  b <- _read_u8 _VCNL4010_MODTIMING ;;
  ret (Z.land (Z.shiftr b 3) 0x03).

Definition set_frequency (val : Z) : M unit :=
  assert ((0 <=? val) && (val <=? 3)) ;;
  timing <- _read_u8 _VCNL4010_MODTIMING ;;
  let timing := Z.land timing (Z.lnot 0x18) in (* ~0b00011000 *)
  let timing := Z.lor timing (Z.land (Z.shiftl val 3) 0xFF) in
  _write_u8 _VCNL4010_MODTIMING timing.

(** *** Construction *)

(** [__init__] after [self._device = i2c_device.I2CDevice(i2c, address)];
    building that handle is the bus library's business. *)

Definition __init__ : M unit :=
  revision <- _read_u8 _VCNL4010_PRODUCTID ;;
  (if negb (Z.land revision 0xF0 =? 0x20) then raise RuntimeError
   else ret tt) ;;
  set_led_current 20 ;;
  set_samplerate SAMPLERATE_1_95 ;;
  set_frequency FREQUENCY_390K625 ;;
  _write_u8 _VCNL4010_INTCONTROL 0x08.

(** *** Measurements *)

(** The [while True:] loop of [proximity], run for at most [fuel]
    iterations. *)
Fixpoint proximity_wait (fuel : nat) : M Z :=
  match fuel with
  | O => out_of_fuel
  | S fuel' =>
      result <- _read_u8 _VCNL4010_COMMAND ;;
      if truthy (Z.land result _VCNL4010_PROXIMITYREADY)
      then _read_u16BE _VCNL4010_PROXIMITYDATA
      else proximity_wait fuel'
  end.

Definition proximity (fuel : nat) : M Z :=
  status <- _read_u8 _VCNL4010_INTSTAT ;;
  let status := Z.land status (Z.lnot 0x80) in
  _write_u8 _VCNL4010_INTSTAT status ;;
  _write_u8 _VCNL4010_COMMAND _VCNL4010_MEASUREPROXIMITY ;;
  proximity_wait fuel.

(** The [while True:] loop of [ambient]. *)
Fixpoint ambient_wait (fuel : nat) : M Z :=
  match fuel with
  | O => out_of_fuel
  | S fuel' =>
      result <- _read_u8 _VCNL4010_COMMAND ;;
      if truthy (Z.land result _VCNL4010_AMBIENTREADY)
      then _read_u16BE _VCNL4010_AMBIENTDATA
      else ambient_wait fuel'
  end.

Definition ambient (fuel : nat) : M Z :=
  status <- _read_u8 _VCNL4010_INTSTAT ;;
  let status := Z.land status (Z.lnot 0x80) in
  _write_u8 _VCNL4010_INTSTAT status ;;
  _write_u8 _VCNL4010_COMMAND _VCNL4010_MEASUREAMBIENT ;;
  ambient_wait fuel.

Definition ambient_lux (fuel : nat) : M float :=
  raw <- ambient fuel ;;
  ret (PrimFloat.mul (float_of_int raw) _VCNL4010_AMBIENT_LUX_SCALE).

End Driver.

Arguments mkWorld {D} _ _ _.
Arguments _BUFFER {D} _.
Arguments device {D} _.
Arguments log {D} _.

Declare Scope driver_scope.
Delimit Scope driver_scope with driver.
Notation "x <- m ;; k" := (bind m (fun x => k))
  (at level 61, m at next level, right associativity) : driver_scope.
Notation "m ;; k" := (bind m (fun _ => k))
  (at level 61, right associativity) : driver_scope.

(** ** Vocabulary for stating what happens on the bus *)

(** The byte that a store of [v & 0xFF] puts into the buffer. *)
Definition low_byte (v : Z) : byte :=
  match byte_of_int (Z.land v 0xFF) with
  | Some b => b
  | None => x00
  end.

(** The two measurement properties of the driver. *)
Inductive channel : Type :=
| Proximity
| Ambient.

Definition trigger_bit (c : channel) : Z :=
  match c with
  | Proximity => _VCNL4010_MEASUREPROXIMITY
  | Ambient => _VCNL4010_MEASUREAMBIENT
  end.

Definition ready_bit (c : channel) : Z :=
  match c with
  | Proximity => _VCNL4010_PROXIMITYREADY
  | Ambient => _VCNL4010_AMBIENTREADY
  end.

Definition data_register (c : channel) : Z :=
  match c with
  | Proximity => _VCNL4010_PROXIMITYDATA
  | Ambient => _VCNL4010_AMBIENTDATA
  end.

(** The three range-checked configuration setters. *)
Inductive setting : Type :=
| LedCurrent
| Samplerate
| Frequency.

Definition setting_max (s : setting) : Z :=
  match s with
  | LedCurrent => 20
  | Samplerate => 7
  | Frequency => 3
  end.

Section Observations.

Context {D : Type}.
Variable bus : Bus D.

(** The answer of the device in state [d] to a two-byte read of the
    register at [address], and the device after that read. *)
Definition reg_read (address : Z) (d : D) : nat -> byte :=
  fst (bus_write_then_readinto bus [low_byte address] 2 d).

Definition after_read (address : Z) (d : D) : D :=
  snd (bus_write_then_readinto bus [low_byte address] 2 d).

(** The first byte of that answer, as an int. *)
Definition reg_value (address : Z) (d : D) : Z :=
  int_of_byte (reg_read address d 0%nat).

Definition read_transaction (address : Z) (d : D) : transaction :=
  WriteThenRead [low_byte address]
                [reg_read address d 0%nat; reg_read address d 1%nat].

(** The device after a register write, and that write on the wire. *)
Definition after_write (address val : Z) (d : D) : D :=
  bus_write bus [low_byte address; low_byte val] d.

Definition write_transaction (address val : Z) : transaction :=
  Write [low_byte address; low_byte val].

(** The device after [k] successive reads of the command register, and
    those reads on the wire. *)
Fixpoint after_polls (k : nat) (d : D) : D :=
  match k with
  | O => d
  | S k' => after_polls k' (after_read _VCNL4010_COMMAND d)
  end.

Fixpoint poll_log (k : nat) (d : D) : list transaction :=
  match k with
  | O => []
  | S k' => read_transaction _VCNL4010_COMMAND d
              :: poll_log k' (after_read _VCNL4010_COMMAND d)
  end.

(** Does a poll of the command register in state [d] see the ready bit
    of channel [c]? *)
Definition poll_ready (c : channel) (d : D) : bool :=
  truthy (Z.land (reg_value _VCNL4010_COMMAND d) (ready_bit c)).


(** [never_ready c n d]: none of the first [n] polls sees the bit. *)
Fixpoint never_ready (c : channel) (n : nat) (d : D) : bool :=
  match n with
  | O => true
  | S n' => negb (poll_ready c d)
            && never_ready c n' (after_read _VCNL4010_COMMAND d)
  end.

(** Dispatch on the channel and on the setter. *)
Definition wait (c : channel) (fuel : nat) : M Z :=
  match c with
  | Proximity => proximity_wait bus fuel
  | Ambient => ambient_wait bus fuel
  end.

Definition measure (c : channel) (fuel : nat) : M Z :=
  match c with
  | Proximity => proximity bus fuel
  | Ambient => ambient bus fuel
  end.

Definition apply_setting (s : setting) (val : Z) : M unit :=
  match s with
  | LedCurrent => set_led_current bus val
  | Samplerate => set_samplerate bus val
  | Frequency => set_frequency bus val
  end.

(** The device state in which the polling loop of a measurement on
    channel [c] starts, when the property is read in device state [d]:
    interrupt status read, written back masked, trigger written. *)
Definition triggered (c : channel) (d : D) : D :=
  let status := Z.land (reg_value _VCNL4010_INTSTAT d) (Z.lnot 0x80) in
  after_write _VCNL4010_COMMAND (trigger_bit c)
    (after_write _VCNL4010_INTSTAT status
       (after_read _VCNL4010_INTSTAT d)).


(** The device in state [d] echoes a write of [val] to the register
    at [address]: a read that follows the write returns that byte. *)
Definition echoes (address val : Z) (d : D) : Prop :=
  reg_read address (after_write address val d) 0%nat = low_byte val.

(** The byte that [set_frequency] computes from the timing register
    byte [timing] and the requested value [val]. *)
Definition new_timing (timing val : Z) : Z :=
  Z.lor (Z.land timing (Z.lnot 0x18)) (Z.land (Z.shiftl val 3) 0xFF).

End Observations.

(** ** A mock register file *)

(** Registers echo what was written to them and reads auto-increment the
    register address.  Reads of the command register first play back
    [command_script], one byte per read, so that a ready bit can be made
    to appear after a chosen number of polls. *)
Record regfile : Type := mkRegfile {
  regs : Z -> byte;
  command_script : list byte
}.

Definition regfile_write (out : list byte) (d : regfile) : regfile :=
  match out with
  | [a; v] =>
      mkRegfile (fun r => if r =? int_of_byte a then v else regs d r)
                (command_script d)
  | _ => d
  end.

Definition regfile_read (out : list byte) (n : nat) (d : regfile)
  : (nat -> byte) * regfile :=
  match out with
  | [a] =>
      let follow := fun i : nat => regs d (int_of_byte a + Z.of_nat i) in
      if int_of_byte a =? _VCNL4010_COMMAND then
        match command_script d with
        | c :: rest =>
            (fun i => match i with O => c | S _ => follow i end,
             mkRegfile (regs d) rest)
        | [] => (follow, d)
        end
      else (follow, d)
  | _ => (fun _ => x00, d)
  end.

Definition regfile_bus : Bus regfile :=
  {| bus_write := regfile_write; bus_write_then_readinto := regfile_read |}.

(** A register file from a list of [(address, value)] pairs; registers
    not listed read as zero. *)
Fixpoint regs_of (l : list (Z * byte)) (r : Z) : byte :=
  match l with
  | [] => x00
  | (a, v) :: t => if r =? a then v else regs_of t r
  end.

Definition mock (l : list (Z * byte)) (script : list byte) : regfile :=
  mkRegfile (regs_of l) script.

(** A freshly imported driver module on top of a device. *)
Definition boot {D : Type} (d : D) : world :=
  mkWorld [x00; x00; x00] d [].

(** ** Vocabulary for outcomes, logs and lux values *)

(** What a measurement may end in: a 16-bit unsigned value, or the loop
    still polling; never an exception. *)
Definition returns_16_bit_or_polls (r : result Z) : Prop :=
  match r with
  | Ok raw => 0 <= raw <= 65535
  | Raise _ => False
  | OutOfFuel => True
  end.

(** Did the call raise? *)
Definition raised {A : Type} (r : result A) : bool :=
  match r with
  | Raise _ => true
  | _ => false
  end.

(** Is the transaction a register write? *)
Definition is_write (t : transaction) : bool :=
  match t with
  | Write _ => true
  | WriteThenRead _ _ => false
  end.

(** The register behind each range-checked setter. *)
Definition setting_register (s : setting) : Z :=
  match s with
  | LedCurrent => _VCNL4010_IRLED
  | Samplerate => _VCNL4010_PROXRATE
  | Frequency => _VCNL4010_MODTIMING
  end.

(** The float that [ambient_lux] computes from a raw measurement. *)
Definition lux_of_raw (raw : Z) : float :=
  PrimFloat.mul (float_of_int raw) _VCNL4010_AMBIENT_LUX_SCALE.

(** ** Bytes *)

Lemma int_of_byte_range (b : byte) : 0 <= int_of_byte b <= 255.
Proof.
  unfold int_of_byte.
  pose proof (Byte.to_N_bounded b) as H.
  split; [apply N2Z.is_nonneg | ].
  change 255 with (Z.of_N 255). now apply N2Z.inj_le.
Qed.

Lemma land_255_range (v : Z) : 0 <= Z.land v 0xFF <= 255.
Proof.
  change (Z.land v 0xFF) with (Z.land v (Z.ones 8)).
  rewrite Z.land_ones by lia. change (2 ^ 8) with 256.
  pose proof (Z.mod_pos_bound v 256 ltac:(lia)). lia.
Qed.

Lemma byte_of_int_land (v : Z) :
  byte_of_int (Z.land v 0xFF) = Some (low_byte v).
Proof.
  unfold low_byte.
  destruct (byte_of_int (Z.land v 0xFF)) as [b|] eqn:E; [reflexivity|].
  exfalso. unfold byte_of_int in E.
  pose proof (land_255_range v) as R.
  destruct (0 <=? Z.land v 0xFF) eqn:L; [|apply Z.leb_gt in L; lia].
  apply Byte.of_N_None_iff in E. lia.
Qed.

Lemma int_of_low_byte (v : Z) : int_of_byte (low_byte v) = Z.land v 0xFF.
Proof.
  pose proof (byte_of_int_land v) as E. unfold byte_of_int in E.
  pose proof (land_255_range v) as R.
  destruct (0 <=? Z.land v 0xFF); [|discriminate].
  apply Byte.to_of_N in E. unfold int_of_byte. rewrite E.
  apply Z2N.id. lia.
Qed.

Lemma land_255_id (v : Z) : 0 <= v <= 255 -> Z.land v 0xFF = v.
Proof.
  intros H. change (Z.land v 0xFF) with (Z.land v (Z.ones 8)).
  rewrite Z.land_ones by lia. change (2 ^ 8) with 256.
  apply Z.mod_small. lia.
Qed.

Lemma low_byte_of_byte (b : byte) : low_byte (int_of_byte b) = b.
Proof.
  pose proof (byte_of_int_land (int_of_byte b)) as E.
  rewrite land_255_id in E by apply int_of_byte_range.
  unfold byte_of_int, int_of_byte in E.
  destruct (0 <=? Z.of_N (Byte.to_N b)); [|discriminate].
  rewrite N2Z.id, Byte.of_to_N in E. fold (int_of_byte b) in E. congruence.
Qed.

(** ** The register primitives, run on a three-byte buffer *)

Section Primitives.

Context {D : Type}.
Variable bus : Bus D.

Lemma buffer_set_0 (v : Z) b0 b1 b2 (d : D) l :
  buffer_set 0 (Z.land v 0xFF) (mkWorld [b0; b1; b2] d l) =
  (Ok tt, mkWorld [low_byte v; b1; b2] d l).
Proof. unfold buffer_set. now rewrite byte_of_int_land. Qed.

Lemma buffer_set_1 (v : Z) b0 b1 b2 (d : D) l :
  buffer_set 1 (Z.land v 0xFF) (mkWorld [b0; b1; b2] d l) =
  (Ok tt, mkWorld [b0; low_byte v; b2] d l).
Proof. unfold buffer_set. now rewrite byte_of_int_land. Qed.

Lemma read_u8_run (a : Z) b0 b1 b2 (d : D) l :
  _read_u8 bus a (mkWorld [b0; b1; b2] d l) =
  (Ok (reg_value bus a d),
   mkWorld [low_byte a; reg_read bus a d 0%nat; reg_read bus a d 1%nat]
           (after_read bus a d) (l ++ [read_transaction bus a d])).
Proof.
  unfold _read_u8, bind. rewrite buffer_set_0.
  unfold i2c_write_then_readinto, reg_value, read_transaction,
    reg_read, after_read.
  cbn [_BUFFER device log length firstn Nat.sub].
  destruct (bus_write_then_readinto bus [low_byte a] 2 d) as [stream d'].
  reflexivity.
Qed.

Lemma read_u16BE_run (a : Z) b0 b1 b2 (d : D) l :
  _read_u16BE bus a (mkWorld [b0; b1; b2] d l) =
  (Ok (Z.lor (Z.shiftl (int_of_byte (reg_read bus a d 0%nat)) 8)
             (int_of_byte (reg_read bus a d 1%nat))),
   mkWorld [low_byte a; reg_read bus a d 0%nat; reg_read bus a d 1%nat]
           (after_read bus a d) (l ++ [read_transaction bus a d])).
Proof.
  unfold _read_u16BE, bind. rewrite buffer_set_0.
  unfold i2c_write_then_readinto, read_transaction, reg_read, after_read.
  cbn [_BUFFER device log length firstn Nat.sub].
  destruct (bus_write_then_readinto bus [low_byte a] 2 d) as [stream d'].
  reflexivity.
Qed.

Lemma write_u8_run (a v : Z) b0 b1 b2 (d : D) l :
  _write_u8 bus a v (mkWorld [b0; b1; b2] d l) =
  (Ok tt,
   mkWorld [low_byte a; low_byte v; b2]
           (after_write bus a v d) (l ++ [write_transaction a v])).
Proof.
  unfold _write_u8, bind. rewrite buffer_set_0, buffer_set_1.
  reflexivity.
Qed.

(** A 16-bit big-endian read is [hi * 256 + lo], hence in [0, 65535]. *)
Lemma high_low_disjoint (hi lo : byte) :
  Z.land (int_of_byte hi * 256) (int_of_byte lo) = 0.
Proof.
  pose proof (int_of_byte_range lo) as Hl.
  apply Z.bits_inj'. intros n Hn. rewrite Z.land_spec, Z.bits_0.
  destruct (Z.ltb_spec n 8) as [Hlt|Hge].
  - change 256 with (2 ^ 8). now rewrite Z.mul_pow2_bits_low by lia.
  - rewrite (Z.bits_above_log2 (int_of_byte lo) n); [apply andb_false_r|lia|].
    destruct (Z.eq_dec (int_of_byte lo) 0) as [->|Hz]; [simpl; lia|].
    apply Z.lt_le_trans with 8; [|lia].
    apply Z.log2_lt_pow2; lia.
Qed.

Lemma compose_value (hi lo : byte) :
  Z.lor (Z.shiftl (int_of_byte hi) 8) (int_of_byte lo)
  = int_of_byte hi * 256 + int_of_byte lo.
Proof.
  rewrite Z.shiftl_mul_pow2 by lia. change (2 ^ 8) with 256.
  rewrite <- Z.lxor_lor by apply high_low_disjoint.
  symmetry. apply Z.add_nocarry_lxor, high_low_disjoint.
Qed.

Lemma compose_range (hi lo : byte) :
  0 <= Z.lor (Z.shiftl (int_of_byte hi) 8) (int_of_byte lo) <= 65535.
Proof.
  pose proof (int_of_byte_range hi). pose proof (int_of_byte_range lo).
  rewrite compose_value. lia.
Qed.

End Primitives.

(** ** The polling loop *)

Section Measurements.

Context {D : Type}.
Variable bus : Bus D.

Lemma wait_step (c : channel) (fuel : nat) b0 b1 b2 (d : D) l :
  wait bus c (S fuel) (mkWorld [b0; b1; b2] d l) =
  let w := mkWorld [low_byte _VCNL4010_COMMAND;
                    reg_read bus _VCNL4010_COMMAND d 0%nat;
                    reg_read bus _VCNL4010_COMMAND d 1%nat]
                   (after_read bus _VCNL4010_COMMAND d)
                   (l ++ [read_transaction bus _VCNL4010_COMMAND d]) in
  if poll_ready bus c d then _read_u16BE bus (data_register c) w
  else wait bus c fuel w.
Proof.
  destruct c; cbn [wait proximity_wait ambient_wait]; unfold bind;
    rewrite read_u8_run; unfold poll_ready; cbn [ready_bit data_register];
    cbv zeta; destruct (truthy _); reflexivity.
Qed.


(** While the ready bit stays clear the loop does nothing but poll. *)
Lemma wait_never_ready (c : channel) (fuel : nat) :
  forall b0 b1 b2 (d : D) l,
    never_ready bus c fuel d = true ->
    exists buf,
      wait bus c fuel (mkWorld [b0; b1; b2] d l) =
      (OutOfFuel,
       mkWorld buf (after_polls bus fuel d) (l ++ poll_log bus fuel d)).
Proof.
  induction fuel as [|fuel IH]; intros b0 b1 b2 d l Hnever.
  - exists [b0; b1; b2].
    destruct c; cbn; rewrite app_nil_r; reflexivity.
  - rewrite wait_step. cbn [never_ready] in Hnever. cbv zeta.
    apply andb_true_iff in Hnever as [Hnot Hrest].
    apply negb_true_iff in Hnot. rewrite Hnot.
    destruct (IH (low_byte _VCNL4010_COMMAND)
                 (reg_read bus _VCNL4010_COMMAND d 0%nat)
                 (reg_read bus _VCNL4010_COMMAND d 1%nat)
                 (after_read bus _VCNL4010_COMMAND d)
                 (l ++ [read_transaction bus _VCNL4010_COMMAND d]) Hrest)
      as [buf E].
    exists buf. rewrite E. cbn [after_polls poll_log].
    now rewrite <- app_assoc.
Qed.

(** Whatever the device does, the loop only appends to the log. *)
Lemma wait_log (c : channel) (fuel : nat) :
  forall b0 b1 b2 (d : D) l,
    exists r w' rest,
      wait bus c fuel (mkWorld [b0; b1; b2] d l) = (r, w')
      /\ log w' = l ++ rest.
Proof.
  induction fuel as [|fuel IH]; intros b0 b1 b2 d l.
  - exists OutOfFuel, (mkWorld [b0; b1; b2] d l), [].
    split; [now destruct c | cbn; now rewrite app_nil_r].
  - rewrite wait_step. cbv zeta. destruct (poll_ready bus c d).
    + rewrite read_u16BE_run. eexists _, _, _. split; [reflexivity|].
      cbn [log]. now rewrite <- app_assoc.
    + destruct (IH (low_byte _VCNL4010_COMMAND)
                   (reg_read bus _VCNL4010_COMMAND d 0%nat)
                   (reg_read bus _VCNL4010_COMMAND d 1%nat)
                   (after_read bus _VCNL4010_COMMAND d)
                   (l ++ [read_transaction bus _VCNL4010_COMMAND d]))
        as (r & w' & rest & E & L).
      exists r, w', (read_transaction bus _VCNL4010_COMMAND d :: rest).
      split; [assumption|]. rewrite L. now rewrite <- app_assoc.
Qed.




(** A measurement is: clear the interrupt, trigger, then the loop. *)
Lemma measure_run (c : channel) (fuel : nat) b0 b1 b2 (d : D) l :
  let status := Z.land (reg_value bus _VCNL4010_INTSTAT d) (Z.lnot 0x80) in
  measure bus c fuel (mkWorld [b0; b1; b2] d l) =
  wait bus c fuel
    (mkWorld [low_byte _VCNL4010_COMMAND; low_byte (trigger_bit c);
              reg_read bus _VCNL4010_INTSTAT d 1%nat]
             (triggered bus c d)
             (l ++ [read_transaction bus _VCNL4010_INTSTAT d;
                    write_transaction _VCNL4010_INTSTAT status;
                    write_transaction _VCNL4010_COMMAND (trigger_bit c)])).
Proof.
  destruct c; cbn [measure]; unfold proximity, ambient, bind;
    rewrite read_u8_run, !write_u8_run; unfold triggered;
    cbn [wait trigger_bit]; rewrite <- !app_assoc; reflexivity.
Qed.

End Measurements.

(** ** Masks on a register byte *)

Lemma clear_top_bit (s : Z) :
  0 <= s <= 255 ->
  int_of_byte (low_byte (Z.land s (Z.lnot 0x80))) = Z.land s 0x7F.
Proof.
  intros _. rewrite int_of_low_byte, <- Z.land_assoc. reflexivity.
Qed.

Lemma mask_7F_top_clear (s : Z) : Z.land (Z.land s 0x7F) 0x80 = 0.
Proof. rewrite <- Z.land_assoc. apply Z.land_0_r. Qed.

Lemma mask_7F_idem (s : Z) : Z.land (Z.land s 0x7F) 0x7F = Z.land s 0x7F.
Proof. now rewrite <- Z.land_assoc. Qed.

Section MeasurementClaims.

Context {D : Type}.
Variable bus : Bus D.


(** C7.  Every measurement, on either channel and whatever happens
    afterwards, starts with a read of the interrupt status register
    0x8E and a write-back of the value read with the top bit 0x80
    cleared and the bits under mask 0x7F unchanged; the trigger write to
    the command register comes only after these two transactions. *)
Theorem interrupt_cleared_before_trigger
    (c : channel) (fuel : nat) b0 b1 b2 (d : D) l :
  let status := reg_value bus _VCNL4010_INTSTAT d in
  let written := int_of_byte (low_byte (Z.land status (Z.lnot 0x80))) in
  exists r w' rest,
    measure bus c fuel (mkWorld [b0; b1; b2] d l) = (r, w')
    /\ log w' = l ++ [WriteThenRead [x8e]
                        [reg_read bus _VCNL4010_INTSTAT d 0%nat;
                         reg_read bus _VCNL4010_INTSTAT d 1%nat];
                      Write [x8e; low_byte (Z.land status (Z.lnot 0x80))];
                      Write [x80; low_byte (trigger_bit c)]] ++ rest
    /\ Z.land written 0x80 = 0
    /\ Z.land written 0x7F = Z.land status 0x7F.
Proof.
  intros status written. rewrite measure_run. cbv zeta.
  match goal with
  | |- context [wait bus c fuel (mkWorld [?a0; ?a1; ?a2] ?d0 ?l0)] =>
      destruct (wait_log bus c fuel a0 a1 a2 d0 l0) as (r & w' & rest & E & L)
  end.
  exists r, w', rest. split; [exact E|]. split.
  - rewrite L, <- app_assoc. reflexivity.
  - unfold written. rewrite clear_top_bit by apply int_of_byte_range.
    split; [apply mask_7F_top_clear | apply mask_7F_idem].
Qed.

End MeasurementClaims.


(** ** The configuration accessors, run on a three-byte buffer *)

Lemma land_byte_lnot (t m : Z) :
  0 <= t <= 255 -> Z.land t (Z.lnot m) = Z.land t (Z.land 0xFF (Z.lnot m)).
Proof.
  intros H. rewrite Z.land_assoc. now rewrite land_255_id.
Qed.

(** Bits 3-4 receive [v], the other six bits keep the value they have
    in [t], and the result is again a byte. *)
Lemma new_timing_bits (t v : Z) :
  0 <= t <= 255 -> 0 <= v <= 3 ->
  let written := Z.lor (Z.land t (Z.lnot 0x18)) (Z.shiftl v 3) in
  Z.land written 0xFF = written
  /\ Z.land (Z.shiftr written 3) 0x03 = v
  /\ Z.land written 0xE7 = Z.land t 0xE7.
Proof.
  intros Ht Hv written. unfold written.
  rewrite (land_byte_lnot t 0x18 Ht).
  change (Z.land 0xFF (Z.lnot 0x18)) with 0xE7.
  assert (C : v = 0 \/ v = 1 \/ v = 2 \/ v = 3) by lia.
  destruct C as [-> | [-> | [-> | ->]]];
    (split; [|split]);
    rewrite ?Z.shiftr_lor, ?Z.shiftr_land, ?Z.land_lor_distr_l,
      <- ?Z.land_assoc;
    cbn [Z.shiftl Z.shiftr Z.land Z.lor Pos.land Pos.lor Z.of_N
         Pos.iter Z.opp Z.mul Pos.mul Z.div2 Pos.div2 Z.shiftl Z.shiftr
         Pos.Nsucc_double Pos.Ndouble N.succ_double N.double];
    rewrite ?Z.land_0_r, ?Z.lor_0_r, ?Z.lor_0_l; reflexivity.
Qed.

Lemma new_timing_in_range (t v : Z) :
  0 <= v <= 3 ->
  new_timing t v = Z.lor (Z.land t (Z.lnot 0x18)) (Z.shiftl v 3).
Proof.
  intros Hv. unfold new_timing. f_equal.
  assert (C : v = 0 \/ v = 1 \/ v = 2 \/ v = 3) by lia.
  destruct C as [-> | [-> | [-> | ->]]]; reflexivity.
Qed.

Lemma land_3F_small (v : Z) : 0 <= v <= 63 -> Z.land v 0x3F = v.
Proof.
  intros H. change (Z.land v 0x3F) with (Z.land v (Z.ones 6)).
  rewrite Z.land_ones by lia. change (2 ^ 6) with 64.
  apply Z.mod_small. lia.
Qed.

Lemma land_ones_range (v n : Z) : 0 <= n -> 0 <= Z.land v (Z.ones n) < 2 ^ n.
Proof.
  intros Hn. rewrite Z.land_ones by assumption.
  apply Z.mod_pos_bound. now apply Z.pow_pos_nonneg.
Qed.

Section Accessors.

Context {D : Type}.
Variable bus : Bus D.

Lemma assert_false_run {A} (k : M A) (w : @world D) :
  bind (assert false) (fun _ => k) w = (Raise AssertionError, w).
Proof. reflexivity. Qed.

Lemma assert_true_run {A} (k : M A) (w : @world D) :
  bind (assert true) (fun _ => k) w = k w.
Proof. reflexivity. Qed.

Lemma set_led_current_run (v : Z) b0 b1 b2 (d : D) l :
  set_led_current bus v (mkWorld [b0; b1; b2] d l) =
  if (0 <=? v) && (v <=? 20)
  then (Ok tt,
        mkWorld [x83; low_byte v; b2] (after_write bus _VCNL4010_IRLED v d)
                (l ++ [Write [x83; low_byte v]]))
  else (Raise AssertionError, mkWorld [b0; b1; b2] d l).
Proof.
  unfold set_led_current.
  destruct ((0 <=? v) && (v <=? 20));
    [rewrite assert_true_run, write_u8_run | rewrite assert_false_run];
    reflexivity.
Qed.

Lemma set_samplerate_run (v : Z) b0 b1 b2 (d : D) l :
  set_samplerate bus v (mkWorld [b0; b1; b2] d l) =
  if (0 <=? v) && (v <=? 7)
  then (Ok tt,
        mkWorld [x82; low_byte v; b2]
                (after_write bus _VCNL4010_PROXRATE v d)
                (l ++ [Write [x82; low_byte v]]))
  else (Raise AssertionError, mkWorld [b0; b1; b2] d l).
Proof.
  unfold set_samplerate.
  destruct ((0 <=? v) && (v <=? 7));
    [rewrite assert_true_run, write_u8_run | rewrite assert_false_run];
    reflexivity.
Qed.

Lemma set_frequency_run (v : Z) b0 b1 b2 (d : D) l :
  let t := reg_value bus _VCNL4010_MODTIMING d in
  set_frequency bus v (mkWorld [b0; b1; b2] d l) =
  if (0 <=? v) && (v <=? 3)
  then (Ok tt,
        mkWorld [x8f; low_byte (new_timing t v);
                 reg_read bus _VCNL4010_MODTIMING d 1%nat]
                (after_write bus _VCNL4010_MODTIMING (new_timing t v)
                   (after_read bus _VCNL4010_MODTIMING d))
                (l ++ [WriteThenRead [x8f]
                         [reg_read bus _VCNL4010_MODTIMING d 0%nat;
                          reg_read bus _VCNL4010_MODTIMING d 1%nat];
                       Write [x8f; low_byte (new_timing t v)]]))
  else (Raise AssertionError, mkWorld [b0; b1; b2] d l).
Proof.
  intros t. unfold set_frequency.
  destruct ((0 <=? v) && (v <=? 3));
    [rewrite assert_true_run | rewrite assert_false_run; reflexivity].
  unfold bind. rewrite read_u8_run. cbv zeta. rewrite write_u8_run.
  rewrite <- app_assoc. reflexivity.
Qed.

Lemma in_range_true (v m : Z) :
  0 <= v <= m -> (0 <=? v) && (v <=? m) = true.
Proof. intros H. apply andb_true_iff; split; apply Z.leb_le; lia. Qed.

Lemma set_led_current_ok (v : Z) b0 b1 b2 (d : D) l :
  0 <= v <= 20 ->
  set_led_current bus v (mkWorld [b0; b1; b2] d l) =
  (Ok tt,
   mkWorld [x83; low_byte v; b2] (after_write bus _VCNL4010_IRLED v d)
           (l ++ [Write [x83; low_byte v]])).
Proof. intros H. now rewrite set_led_current_run, in_range_true. Qed.

Lemma set_samplerate_ok (v : Z) b0 b1 b2 (d : D) l :
  0 <= v <= 7 ->
  set_samplerate bus v (mkWorld [b0; b1; b2] d l) =
  (Ok tt,
   mkWorld [x82; low_byte v; b2] (after_write bus _VCNL4010_PROXRATE v d)
           (l ++ [Write [x82; low_byte v]])).
Proof. intros H. now rewrite set_samplerate_run, in_range_true. Qed.

Lemma set_frequency_ok (v : Z) b0 b1 b2 (d : D) l :
  0 <= v <= 3 ->
  let t := reg_value bus _VCNL4010_MODTIMING d in
  set_frequency bus v (mkWorld [b0; b1; b2] d l) =
  (Ok tt,
   mkWorld [x8f; low_byte (new_timing t v);
            reg_read bus _VCNL4010_MODTIMING d 1%nat]
           (after_write bus _VCNL4010_MODTIMING (new_timing t v)
              (after_read bus _VCNL4010_MODTIMING d))
           (l ++ [WriteThenRead [x8f]
                    [reg_read bus _VCNL4010_MODTIMING d 0%nat;
                     reg_read bus _VCNL4010_MODTIMING d 1%nat];
                  Write [x8f; low_byte (new_timing t v)]])).
Proof. intros H t. now rewrite set_frequency_run, in_range_true. Qed.

Lemma led_current_run b0 b1 b2 (d : D) l :
  led_current bus (mkWorld [b0; b1; b2] d l) =
  (Ok (Z.land (reg_value bus _VCNL4010_IRLED d) 0x3F),
   mkWorld [x83; reg_read bus _VCNL4010_IRLED d 0%nat;
            reg_read bus _VCNL4010_IRLED d 1%nat]
           (after_read bus _VCNL4010_IRLED d)
           (l ++ [read_transaction bus _VCNL4010_IRLED d])).
Proof. unfold led_current, bind. now rewrite read_u8_run. Qed.

(** Writing an accepted value and reading it back from a device that
    echoes the write: the whole run. *)
Lemma led_current_set_get_run (v : Z) b0 b1 b2 (d : D) l :
  0 <= v <= 20 ->
  echoes bus _VCNL4010_IRLED v d ->
  let stored := after_write bus _VCNL4010_IRLED v d in
  (set_led_current bus v ;; led_current bus)%driver
    (mkWorld [b0; b1; b2] d l) =
  (Ok v,
   mkWorld [x83; low_byte v; reg_read bus _VCNL4010_IRLED stored 1%nat]
           (after_read bus _VCNL4010_IRLED stored)
           (l ++ [Write [x83; low_byte v];
                  WriteThenRead [x83]
                    [low_byte v; reg_read bus _VCNL4010_IRLED stored 1%nat]])).
Proof.
  intros Hv Hecho stored. unfold bind.
  rewrite set_led_current_ok by assumption.
  rewrite led_current_run. fold stored.
  unfold read_transaction, reg_value. unfold echoes in Hecho.
  fold stored in Hecho. rewrite Hecho, int_of_low_byte.
  rewrite land_255_id by lia. rewrite land_3F_small by lia.
  rewrite <- app_assoc. reflexivity.
Qed.

Lemma echoed_value_masked (v : Z) (d : D) :
  0 <= v <= 20 ->
  echoes bus _VCNL4010_IRLED v d ->
  Z.land (reg_value bus _VCNL4010_IRLED (after_write bus _VCNL4010_IRLED v d))
         0x3F = v.
Proof.
  intros Hv Hecho. unfold reg_value. unfold echoes in Hecho.
  rewrite Hecho, int_of_low_byte.
  rewrite land_255_id by lia. now rewrite land_3F_small by lia.
Qed.

End Accessors.

(** ** Construction and configuration *)

Section ConfigurationClaims.

Context {D : Type}.
Variable bus : Bus D.

(** C2.  Construction reads the product-ID register 0x81 and raises
    [RuntimeError], after that single read, exactly when
    [(value & 0xF0) != 0x20]; otherwise it writes 20 to the LED current
    register 0x83, 0 to the sample-rate register 0x82, clears bits 3-4
    of the timing register 0x8F by read-modify-write (frequency 0) and
    writes 0x08 to the interrupt-control register 0x89, in this order.
    Product-ID byte 0x21 is accepted, 0x31 and 0x1F are refused. *)
Theorem init_identity_check b0 b1 b2 (d : D) l :
  let revision := reg_value bus _VCNL4010_PRODUCTID d in
  let id_read :=
    WriteThenRead [x81] [reg_read bus _VCNL4010_PRODUCTID d 0%nat;
                         reg_read bus _VCNL4010_PRODUCTID d 1%nat] in
  let d1 := after_read bus _VCNL4010_PRODUCTID d in
  let d2 := after_write bus _VCNL4010_IRLED 20 d1 in
  let d3 := after_write bus _VCNL4010_PROXRATE 0 d2 in
  let timing := reg_value bus _VCNL4010_MODTIMING d3 in
  let d4 := after_read bus _VCNL4010_MODTIMING d3 in
  let d5 := after_write bus _VCNL4010_MODTIMING (new_timing timing 0) d4 in
  let d6 := after_write bus _VCNL4010_INTCONTROL 0x08 d5 in
  __init__ bus (mkWorld [b0; b1; b2] d l) =
  (if Z.land revision 0xF0 =? 0x20
   then (Ok tt,
         mkWorld [x89; x08; reg_read bus _VCNL4010_MODTIMING d3 1%nat] d6
                 (l ++ [id_read;
                        Write [x83; x14];
                        Write [x82; x00];
                        WriteThenRead [x8f]
                          [reg_read bus _VCNL4010_MODTIMING d3 0%nat;
                           reg_read bus _VCNL4010_MODTIMING d3 1%nat];
                        Write [x8f; low_byte (new_timing timing 0)];
                        Write [x89; x08]]))
   else (Raise RuntimeError,
         mkWorld [x81; reg_read bus _VCNL4010_PRODUCTID d 0%nat;
                  reg_read bus _VCNL4010_PRODUCTID d 1%nat] d1
                 (l ++ [id_read])))
  /\ int_of_byte (low_byte (new_timing timing 0)) = Z.land timing 0xE7
  /\ fst (__init__ regfile_bus (boot (mock [(0x81, x21)] []))) = Ok tt
  /\ fst (__init__ regfile_bus (boot (mock [(0x81, x31)] [])))
     = Raise RuntimeError
  /\ fst (__init__ regfile_bus (boot (mock [(0x81, x1f)] [])))
     = Raise RuntimeError.
Proof.
  intros revision id_read d1 d2 d3 timing d4 d5 d6.
  split; [|split; [|repeat split; reflexivity]].
  - unfold __init__, bind at 1. rewrite read_u8_run.
    fold revision. unfold bind at 1.
    destruct (Z.land revision 0xF0 =? 0x20); cbn [negb]; [|reflexivity].
    unfold ret, bind at 1. rewrite set_led_current_ok by lia.
    unfold SAMPLERATE_1_95, FREQUENCY_390K625.
    unfold bind at 1. rewrite set_samplerate_ok by lia.
    unfold bind. rewrite set_frequency_ok by lia. cbv zeta.
    rewrite write_u8_run. rewrite <- !app_assoc. reflexivity.
  - pose proof (new_timing_bits timing 0 (int_of_byte_range _)
                  ltac:(lia)) as (Hb & _).
    rewrite int_of_low_byte, new_timing_in_range by lia.
    cbv zeta in Hb. rewrite Hb.
    change (Z.shiftl 0 3) with 0. rewrite Z.lor_0_r.
    now rewrite (land_byte_lnot timing 0x18 (int_of_byte_range _)).
Qed.

(** C3.  For every timing-register byte [t] and every [v] in [0,3] the
    frequency setter reads register 0x8F and writes back
    [(t & ~0b00011000) | (v << 3)]: bits 3-4 of the byte written are [v]
    and the other six bits (mask 0xE7) are those of [t]. *)
Theorem frequency_setter_preserves_bits (v : Z) b0 b1 b2 (d : D) l :
  0 <= v <= 3 ->
  let t := reg_value bus _VCNL4010_MODTIMING d in
  let written := Z.lor (Z.land t (Z.lnot 0x18)) (Z.shiftl v 3) in
  set_frequency bus v (mkWorld [b0; b1; b2] d l) =
  (Ok tt,
   mkWorld [x8f; low_byte written; reg_read bus _VCNL4010_MODTIMING d 1%nat]
           (after_write bus _VCNL4010_MODTIMING written
              (after_read bus _VCNL4010_MODTIMING d))
           (l ++ [WriteThenRead [x8f]
                    [reg_read bus _VCNL4010_MODTIMING d 0%nat;
                     reg_read bus _VCNL4010_MODTIMING d 1%nat];
                  Write [x8f; low_byte written]]))
  /\ int_of_byte (low_byte written) = written
  /\ Z.land (Z.shiftr written 3) 0x03 = v
  /\ Z.land written 0xE7 = Z.land t 0xE7.
Proof.
  intros Hv t written.
  pose proof (new_timing_bits t v (int_of_byte_range _) Hv)
    as (Hb & H34 & Hk).
  split; [|split; [|split]]; try assumption.
  - rewrite set_frequency_ok by assumption. cbv zeta. fold t.
    rewrite new_timing_in_range by assumption. reflexivity.
  - rewrite int_of_low_byte. exact Hb.
Qed.

(** C4.  For every [v] in [0,20], on a device that echoes the write to
    the LED current register, setting [led_current] to [v] and then
    reading [led_current] returns [v]: the setter writes [v] to register
    0x83, the getter reads that register back from the device, and the
    byte the device returns, masked with 0x3F, is [v].  The getter masks
    whatever byte the device holds with 0x3F. *)
Theorem led_current_round_trip (v : Z) b0 b1 b2 (d : D) l :
  0 <= v <= 20 ->
  echoes bus _VCNL4010_IRLED v d ->
  let stored := after_write bus _VCNL4010_IRLED v d in
  (set_led_current bus v ;; led_current bus)%driver
    (mkWorld [b0; b1; b2] d l) =
  (Ok v,
   mkWorld [x83; low_byte v; reg_read bus _VCNL4010_IRLED stored 1%nat]
           (after_read bus _VCNL4010_IRLED stored)
           (l ++ [Write [x83; low_byte v];
                  WriteThenRead [x83]
                    [low_byte v; reg_read bus _VCNL4010_IRLED stored 1%nat]]))
  /\ Z.land (reg_value bus _VCNL4010_IRLED stored) 0x3F = v
  /\ int_of_byte (low_byte v) = v
  /\ led_current bus (mkWorld [b0; b1; b2] d l) =
     (Ok (Z.land (reg_value bus _VCNL4010_IRLED d) 0x3F),
      mkWorld [x83; reg_read bus _VCNL4010_IRLED d 0%nat;
               reg_read bus _VCNL4010_IRLED d 1%nat]
              (after_read bus _VCNL4010_IRLED d)
              (l ++ [WriteThenRead [x83]
                       [reg_read bus _VCNL4010_IRLED d 0%nat;
                        reg_read bus _VCNL4010_IRLED d 1%nat]])).
Proof.
  intros Hv Hecho stored. split; [|split; [|split]].
  - now apply led_current_set_get_run.
  - now apply echoed_value_masked.
  - rewrite int_of_low_byte. apply land_255_id. lia.
  - now rewrite led_current_run.
Qed.

(** C6.  Each of the three configuration setters, given a value outside
    its range ([0,20] for [led_current], [0,7] for [samplerate], [0,3]
    for [frequency]), raises [AssertionError] and leaves the buffer, the
    device and the transaction log exactly as they were: nothing went
    over the bus. *)
Theorem setters_reject_out_of_range (s : setting) (v : Z) (w : @world D) :
  v < 0 \/ setting_max s < v ->
  apply_setting bus s v w = (Raise AssertionError, w).
Proof.
  intros Hv.
  assert (E : (0 <=? v) && (v <=? setting_max s) = false).
  { apply andb_false_iff. destruct Hv; [left; apply Z.leb_gt | right;
      apply Z.leb_gt]; assumption. }
  destruct s; cbn [apply_setting setting_max] in *;
    unfold set_led_current, set_samplerate, set_frequency;
    rewrite E; apply assert_false_run.
Qed.

(** C9.  The milliamp setter is [led_current = val // 10] and checks
    nothing itself.  It succeeds, writing [x // 10] to register 0x83,
    exactly for [0 <= x <= 209] (which is [0 <= x // 10 <= 20]), so also
    for 201..209; for every other [x], negative ones included, the
    assertion of [led_current] fails and nothing is written. *)
Theorem led_current_mA_setter_range (x : Z) b0 b1 b2 (d : D) l :
  set_led_current_mA bus x = set_led_current bus (x / 10)
  /\ set_led_current_mA bus x (mkWorld [b0; b1; b2] d l) =
     (if (0 <=? x) && (x <=? 209)
      then (Ok tt,
            mkWorld [x83; low_byte (x / 10); b2]
                    (after_write bus _VCNL4010_IRLED (x / 10) d)
                    (l ++ [Write [x83; low_byte (x / 10)]]))
      else (Raise AssertionError, mkWorld [b0; b1; b2] d l))
  /\ (0 <=? x / 10) && (x / 10 <=? 20) = (0 <=? x) && (x <=? 209)
  /\ fst (set_led_current_mA regfile_bus 209 (boot (mock [] []))) = Ok tt
  /\ fst (set_led_current_mA regfile_bus 210 (boot (mock [] [])))
     = Raise AssertionError
  /\ fst (set_led_current_mA regfile_bus (-1) (boot (mock [] [])))
     = Raise AssertionError.
Proof.
  assert (E : (0 <=? x / 10) && (x / 10 <=? 20) = (0 <=? x) && (x <=? 209)).
  { assert (H1 : 0 <= x / 10 <-> 0 <= x)
      by (split; intros; [|apply Z.div_pos; lia];
          destruct (Z.le_gt_cases 0 x); [assumption|];
          pose proof (Z.div_lt_upper_bound x 10 0); lia).
    assert (H2 : x / 10 <= 20 <-> x <= 209).
    { split; intros H.
      - destruct (Z.le_gt_cases x 209); [assumption|].
        pose proof (Z.div_le_lower_bound x 10 21); lia.
      - pose proof (Z.div_lt_upper_bound x 10 21); lia. }
    destruct (Z.leb_spec 0 (x / 10)), (Z.leb_spec 0 x),
      (Z.leb_spec (x / 10) 20), (Z.leb_spec x 209);
      cbn [andb]; try reflexivity; lia. }
  split; [reflexivity|]. split; [|split; [exact E|repeat split; reflexivity]].
  unfold set_led_current_mA. rewrite set_led_current_run, E. reflexivity.
Qed.

(** C10.  The sample-rate getter returns the register byte as it is,
    which may be anything up to 255 and so lie outside [0,7]; the LED
    current getter returns [b & 0x3F], always in [0,63]; the frequency
    getter returns [(b >> 3) & 0x03], always in [0,3]. *)
Theorem getters_masking b0 b1 b2 (d : D) l :
  let w := mkWorld [b0; b1; b2] d l in
  let rate := reg_value bus _VCNL4010_PROXRATE d in
  let led := reg_value bus _VCNL4010_IRLED d in
  let timing := reg_value bus _VCNL4010_MODTIMING d in
  fst (samplerate bus w) = Ok rate
  /\ 0 <= rate <= 255
  /\ fst (samplerate regfile_bus (boot (mock [(0x82, xff)] []))) = Ok 255
  /\ fst (led_current bus w) = Ok (Z.land led 0x3F)
  /\ 0 <= Z.land led 0x3F <= 63
  /\ fst (frequency bus w) = Ok (Z.land (Z.shiftr timing 3) 0x03)
  /\ 0 <= Z.land (Z.shiftr timing 3) 0x03 <= 3.
Proof.
  intros w rate led timing. unfold w.
  split; [|split; [|split; [|split; [|split; [|split]]]]].
  - unfold samplerate. now rewrite read_u8_run.
  - apply int_of_byte_range.
  - reflexivity.
  - now rewrite led_current_run.
  - pose proof (land_ones_range led 6 ltac:(lia)) as H.
    change (Z.ones 6) with 0x3F in H. change (2 ^ 6) with 64 in H. lia.
  - unfold frequency, bind. now rewrite read_u8_run.
  - pose proof (land_ones_range (Z.shiftr timing 3) 2 ltac:(lia)) as H.
    change (Z.ones 2) with 0x03 in H. change (2 ^ 2) with 4 in H. lia.
Qed.

End ConfigurationClaims.

(** Timing register 0b11100111 and frequency 2 give 0b11110111. *)
Lemma frequency_setter_preserves_bits_witness :
  let w := boot (mock [(0x8F, xe7)] []) in
  0 <= 2 <= 3
  /\ fst (set_frequency regfile_bus 2 w) = Ok tt
  /\ log (snd (set_frequency regfile_bus 2 w)) =
     [WriteThenRead [x8f] [xe7; x00]; Write [x8f; xf7]]
  /\ regs (device (snd (set_frequency regfile_bus 2 w))) 0x8F = xf7.
Proof.
  intros w.
  assert (H : 0 <= 2 <= 3) by lia.
  destruct (frequency_setter_preserves_bits regfile_bus 2 x00 x00 x00
              (mock [(0x8F, xe7)] []) [] H) as [E _].
  unfold w, boot. rewrite E. repeat split; reflexivity || lia.
Defined.

Lemma led_current_round_trip_witness :
  0 <= 17 <= 20
  /\ echoes regfile_bus _VCNL4010_IRLED 17 (mock [] [])
  /\ fst ((set_led_current regfile_bus 17 ;; led_current regfile_bus)%driver
          (boot (mock [] []))) = Ok 17
  /\ log (snd ((set_led_current regfile_bus 17 ;; led_current regfile_bus)%driver
               (boot (mock [] [])))) =
     [Write [x83; x11]; WriteThenRead [x83] [x11; x00]].
Proof.
  assert (H : 0 <= 17 <= 20) by lia.
  assert (E : echoes regfile_bus _VCNL4010_IRLED 17 (mock [] []))
    by reflexivity.
  destruct (led_current_round_trip regfile_bus 17 x00 x00 x00 (mock [] []) []
              H E) as [R _].
  split; [exact H|]. split; [exact E|].
  unfold boot. rewrite R. split; reflexivity.
Defined.

Lemma setters_reject_out_of_range_witness :
  (4 < 0 \/ setting_max Frequency < 4)
  /\ apply_setting regfile_bus Frequency 4 (boot (mock [] []))
     = (Raise AssertionError, boot (mock [] [])).
Proof.
  assert (H : 4 < 0 \/ setting_max Frequency < 4) by (right; simpl; lia).
  split; [exact H|].
  exact (setters_reject_out_of_range regfile_bus Frequency 4
           (boot (mock [] [])) H).
Defined.

(** ** The milliamp accessor *)

Section Milliamps.

Context {D : Type}.
Variable bus : Bus D.

Lemma led_current_mA_run b0 b1 b2 (d : D) l :
  led_current_mA bus (mkWorld [b0; b1; b2] d l) =
  (Ok (Z.land (reg_value bus _VCNL4010_IRLED d) 0x3F * 10),
   snd (led_current bus (mkWorld [b0; b1; b2] d l))).
Proof. unfold led_current_mA, bind. now rewrite led_current_run. Qed.

(** C5, as the code has it.  Whatever byte the LED current register
    holds, the milliamp getter returns ten times what [led_current]
    returns, after the same single read.  Setting 123 mA does what
    setting 120 mA does: both write 12 to register 0x83.  For every [x]
    with [0 <= x <= 209], on a device that echoes the write to the LED
    current register, setting [led_current_mA = x] writes [x // 10] and
    reading [led_current] then reads that register back and yields
    [x // 10]; on this range floor division and division truncating
    toward zero agree. *)
Theorem led_current_mA_quantizes (x : Z) b0 b1 b2 (d : D) l :
  let w := mkWorld [b0; b1; b2] d l in
  let stored := Z.land (reg_value bus _VCNL4010_IRLED d) 0x3F in
  let after_get :=
    mkWorld [x83; reg_read bus _VCNL4010_IRLED d 0%nat;
             reg_read bus _VCNL4010_IRLED d 1%nat]
            (after_read bus _VCNL4010_IRLED d)
            (l ++ [WriteThenRead [x83]
                     [reg_read bus _VCNL4010_IRLED d 0%nat;
                      reg_read bus _VCNL4010_IRLED d 1%nat]]) in
  let twelve :=
    (Ok tt,
     mkWorld [x83; x0c; b2] (after_write bus _VCNL4010_IRLED 12 d)
             (l ++ [Write [x83; x0c]])) in
  led_current bus w = (Ok stored, after_get)
  /\ led_current_mA bus w = (Ok (stored * 10), after_get)
  /\ set_led_current_mA bus 123 w = twelve
  /\ set_led_current_mA bus 120 w = twelve
  /\ (0 <= x <= 209 ->
      echoes bus _VCNL4010_IRLED (x / 10) d ->
      let device_after := after_write bus _VCNL4010_IRLED (x / 10) d in
      (set_led_current_mA bus x ;; led_current bus)%driver w =
      (Ok (x / 10),
       mkWorld [x83; low_byte (x / 10);
                reg_read bus _VCNL4010_IRLED device_after 1%nat]
               (after_read bus _VCNL4010_IRLED device_after)
               (l ++ [Write [x83; low_byte (x / 10)];
                      WriteThenRead [x83]
                        [low_byte (x / 10);
                         reg_read bus _VCNL4010_IRLED device_after 1%nat]]))
      /\ x / 10 = Z.quot x 10).
Proof.
  intros w stored after_get twelve.
  split; [|split; [|split; [|split]]].
  - unfold w. now rewrite led_current_run.
  - unfold w. now rewrite led_current_mA_run, led_current_run.
  - unfold w, set_led_current_mA.
    change (123 / 10) with 12. now rewrite set_led_current_ok by lia.
  - unfold w, set_led_current_mA.
    change (120 / 10) with 12. now rewrite set_led_current_ok by lia.
  - intros Hx Hecho device_after.
    assert (Hq : 0 <= x / 10 <= 20).
    { split; [apply Z.div_pos; lia|].
      pose proof (Z.div_lt_upper_bound x 10 21). lia. }
    split.
    + unfold set_led_current_mA, w.
      now apply led_current_set_get_run.
    + symmetry. apply Z.quot_div_nonneg; lia.
Qed.

End Milliamps.

Lemma led_current_mA_quantizes_witness :
  let w := boot (mock [] []) in
  0 <= 123 <= 209
  /\ echoes regfile_bus _VCNL4010_IRLED (123 / 10) (mock [] [])
  /\ fst ((set_led_current_mA regfile_bus 123 ;; led_current regfile_bus)%driver
          w) = Ok 12
  /\ log (snd ((set_led_current_mA regfile_bus 123
                ;; led_current regfile_bus)%driver w)) =
     [Write [x83; x0c]; WriteThenRead [x83] [x0c; x00]]
  /\ fst ((set_led_current_mA regfile_bus 123 ;; led_current_mA regfile_bus)%driver
          w) = Ok 120.
Proof.
  intros w.
  assert (H : 0 <= 123 <= 209) by lia.
  assert (E : echoes regfile_bus _VCNL4010_IRLED (123 / 10) (mock [] []))
    by reflexivity.
  destruct (led_current_mA_quantizes regfile_bus 123 x00 x00 x00
              (mock [] []) []) as (_ & _ & _ & _ & R).
  destruct (R H E) as [R' _].
  split; [exact H|]. split; [exact E|].
  unfold w, boot. rewrite R'. repeat split; reflexivity.
Defined.

(** C5 as stated fails: 210 mA asks for the setting 21, which the range
    check of [led_current] refuses, so nothing is written and a later
    read of [led_current] on the echoing register file shows the old
    value, not [210 // 10].  A negative request such as -5 mA is refused
    as well, although truncation toward zero would turn it into 0. *)
Lemma led_current_mA_210_refused :
  let w := boot (mock [] []) in
  echoes regfile_bus _VCNL4010_IRLED (210 / 10) (mock [] [])
  /\ set_led_current_mA regfile_bus 210 w = (Raise AssertionError, w)
  /\ fst ((set_led_current_mA regfile_bus 210 ;; led_current regfile_bus)%driver
          w) <> Ok (210 / 10)
  /\ fst (led_current regfile_bus (snd (set_led_current_mA regfile_bus 210 w)))
     = Ok 0
  /\ Z.quot (-5) 10 = 0
  /\ set_led_current_mA regfile_bus (-5) w = (Raise AssertionError, w).
Proof.
  intros w. repeat split; try reflexivity. cbn. discriminate.
Qed.

(** ** Lux *)

Lemma all_range_spec (p : Z -> bool) (k : nat) :
  forall lo z,
    all_range k lo p = true ->
    lo <= z < lo + 2 ^ Z.of_nat k ->
    p z = true.
Proof.
  induction k as [|k IH]; intros lo z H Hz.
  - cbn in *. replace z with lo by lia. exact H.
  - cbn [all_range] in H. apply andb_true_iff in H as [H1 H2].
    rewrite Nat2Z.inj_succ, Z.pow_succ_r in Hz by lia.
    destruct (Z.lt_ge_cases z (lo + 2 ^ Z.of_nat k)).
    + apply (IH lo); [assumption | lia].
    + apply (IH (lo + 2 ^ Z.of_nat k)); [assumption | lia].
Qed.

(** Every 16-bit value times 0.25 is computed without rounding. *)
Lemma lux_exact_16_bit :
  all_range 16 0
    (fun raw =>
       float_is (PrimFloat.mul (float_of_int raw) _VCNL4010_AMBIENT_LUX_SCALE)
                (inject_Z raw * (1 # 4))) = true.
Proof. vm_compute. reflexivity. Qed.

Section Lux.

Context {D : Type}.
Variable bus : Bus D.

Lemma wait_result_range (c : channel) (fuel : nat) :
  forall b0 b1 b2 (d : D) l raw w',
    wait bus c fuel (mkWorld [b0; b1; b2] d l) = (Ok raw, w') ->
    0 <= raw <= 65535.
Proof.
  induction fuel as [|fuel IH]; intros b0 b1 b2 d l raw w' H.
  - destruct c; discriminate H.
  - rewrite wait_step in H. cbv zeta in H.
    destruct (poll_ready bus c d).
    + rewrite read_u16BE_run in H. inversion H. apply compose_range.
    + eapply IH, H.
Qed.

(** C8.  Whenever [ambient] returns the raw value [raw], which is then
    in [0,65535], [ambient_lux] returns, in the same final state, the
    float [raw * 0.25], and that float is exactly the rational
    [raw / 4]: nothing but the raw measurement enters the result.
    Raw 0 gives 0 and raw 65535 gives 16383.75. *)
Theorem ambient_lux_scale
    (fuel : nat) b0 b1 b2 (d : D) l (raw : Z) (w' : @world D) :
  ambient bus fuel (mkWorld [b0; b1; b2] d l) = (Ok raw, w') ->
  let lux := PrimFloat.mul (float_of_int raw) _VCNL4010_AMBIENT_LUX_SCALE in
  0 <= raw <= 65535
  /\ ambient_lux bus fuel (mkWorld [b0; b1; b2] d l) = (Ok lux, w')
  /\ float_is lux (inject_Z raw * (1 # 4)) = true
  /\ float_is (PrimFloat.mul (float_of_int 0) _VCNL4010_AMBIENT_LUX_SCALE)
              0 = true
  /\ float_is (PrimFloat.mul (float_of_int 65535)
                             _VCNL4010_AMBIENT_LUX_SCALE)
              (1638375 # 100) = true.
Proof.
  intros H lux.
  assert (R : 0 <= raw <= 65535).
  { change (ambient bus fuel) with (measure bus Ambient fuel) in H.
    rewrite measure_run in H. cbv zeta in H.
    eapply wait_result_range, H. }
  split; [exact R|]. split; [|split; [|split]].
  - unfold ambient_lux, bind. now rewrite H.
  - apply (all_range_spec _ 16 0 raw lux_exact_16_bit).
    change (2 ^ Z.of_nat 16) with 65536. lia.
  - vm_compute. reflexivity.
  - vm_compute. reflexivity.
Qed.

End Lux.

(** Ambient result bytes 0xFF, 0xFF, ready at the first poll. *)
Lemma ambient_lux_scale_witness :
  let w := boot (mock [(0x85, xff); (0x86, xff)] [x50]) in
  fst (ambient regfile_bus 3 w) = Ok 65535
  /\ fst (ambient_lux regfile_bus 3 w)
     = Ok (PrimFloat.mul (float_of_int 65535) _VCNL4010_AMBIENT_LUX_SCALE)
  /\ PrimFloat.eqb
       (PrimFloat.mul (float_of_int 65535) _VCNL4010_AMBIENT_LUX_SCALE)
       16383.75%float = true.
Proof.
  intros w.
  assert (H : ambient regfile_bus 3 w
              = (Ok 65535, snd (ambient regfile_bus 3 w))).
  { rewrite (surjective_pairing (ambient regfile_bus 3 w)) at 1.
    f_equal. }
  destruct (ambient_lux_scale regfile_bus 3 x00 x00 x00
              (mock [(0x85, xff); (0x86, xff)] [x50]) [] 65535 _ H)
    as (_ & E & _).
  split; [reflexivity|]. split; [|reflexivity].
  unfold w, boot. now rewrite E.
Defined.

(** ** Further properties of the register primitives *)

Lemma int_of_low_byte_mod (v : Z) : int_of_byte (low_byte v) = v mod 256.
Proof.
  rewrite int_of_low_byte.
  change (Z.land v 0xFF) with (Z.land v (Z.ones 8)).
  now rewrite Z.land_ones by lia.
Qed.

Section PrimitiveProperties.

Context {D : Type}.
Variable bus : Bus D.

(** X1.  On a bus that acknowledges the transaction, an 8-bit register
    read takes any integer as address and uses it modulo 256; it
    transfers two bytes from the device (the whole rest of the scratch
    buffer) in a single write-then-read and returns the first of them, a
    value in [0,255]; the second stays behind in the buffer. *)
Theorem read_u8_transfers_two_bytes (a : Z) b0 b1 b2 (d : D) l :
  let first := reg_read bus a d 0%nat in
  let second := reg_read bus a d 1%nat in
  _read_u8 bus a (mkWorld [b0; b1; b2] d l) =
  (Ok (int_of_byte first),
   mkWorld [low_byte a; first; second] (after_read bus a d)
           (l ++ [WriteThenRead [low_byte a] [first; second]]))
  /\ int_of_byte (low_byte a) = a mod 256
  /\ 0 <= int_of_byte first <= 255.
Proof.
  intros first second. split; [|split].
  - now rewrite read_u8_run.
  - apply int_of_low_byte_mod.
  - apply int_of_byte_range.
Qed.

(** X2.  On a bus that acknowledges the transaction, a register write
    takes any two integers: address and value go out as one two-byte
    transaction, each reduced modulo 256 (no [ValueError] from the buffer
    stores), and the third byte of the scratch buffer is left alone. *)
Theorem write_u8_wraps_modulo_256 (a v : Z) b0 b1 b2 (d : D) l :
  _write_u8 bus a v (mkWorld [b0; b1; b2] d l) =
  (Ok tt,
   mkWorld [low_byte a; low_byte v; b2]
           (bus_write bus [low_byte a; low_byte v] d)
           (l ++ [Write [low_byte a; low_byte v]]))
  /\ int_of_byte (low_byte a) = a mod 256
  /\ int_of_byte (low_byte v) = v mod 256.
Proof.
  split; [|split]; try apply int_of_low_byte_mod.
  now rewrite write_u8_run.
Qed.

(** X3.  A 16-bit read is one two-byte transfer; its result is
    [256 * first + second], hence always in [0,65535], and the high and
    low bytes can be recovered from it by division and remainder. *)
Theorem read_u16BE_value (a : Z) b0 b1 b2 (d : D) l :
  let hi := int_of_byte (reg_read bus a d 0%nat) in
  let lo := int_of_byte (reg_read bus a d 1%nat) in
  _read_u16BE bus a (mkWorld [b0; b1; b2] d l) =
  (Ok (256 * hi + lo),
   mkWorld [low_byte a; reg_read bus a d 0%nat; reg_read bus a d 1%nat]
           (after_read bus a d)
           (l ++ [WriteThenRead [low_byte a]
                    [reg_read bus a d 0%nat; reg_read bus a d 1%nat]]))
  /\ 0 <= 256 * hi + lo <= 65535
  /\ (256 * hi + lo) / 256 = hi
  /\ (256 * hi + lo) mod 256 = lo.
Proof.
  intros hi lo.
  pose proof (int_of_byte_range (reg_read bus a d 0%nat)) as Hh.
  pose proof (int_of_byte_range (reg_read bus a d 1%nat)) as Hl.
  fold hi in Hh. fold lo in Hl.
  split; [|split; [lia|split]].
  - rewrite read_u16BE_run, compose_value. fold hi lo.
    now rewrite (Z.mul_comm hi 256).
  - rewrite Z.add_comm, Z.mul_comm, Z.div_add by lia.
    rewrite Z.div_small by lia. reflexivity.
  - rewrite Z.add_comm, Z.mul_comm, Z.mod_add by lia.
    apply Z.mod_small. lia.
Qed.

End PrimitiveProperties.

(** ** Further properties of the measurements *)

Section MeasurementProperties.

Context {D : Type}.
Variable bus : Bus D.

(** The loop ends in a 16-bit value or keeps polling; it only reads, and
    it leaves a three-byte buffer. *)
Lemma wait_outcome (c : channel) (fuel : nat) :
  forall b0 b1 b2 (d : D) l,
    exists r c0 c1 c2 d' rest,
      wait bus c fuel (mkWorld [b0; b1; b2] d l)
      = (r, mkWorld [c0; c1; c2] d' (l ++ rest))
      /\ returns_16_bit_or_polls r
      /\ filter is_write rest = [].
Proof.
  induction fuel as [|fuel IH]; intros b0 b1 b2 d l.
  - exists OutOfFuel, b0, b1, b2, d, [].
    rewrite app_nil_r. repeat split. now destruct c.
  - rewrite wait_step. cbv zeta. destruct (poll_ready bus c d).
    + rewrite read_u16BE_run. rewrite <- app_assoc.
      eexists _, _, _, _, _, _. split; [reflexivity|].
      split; [apply compose_range | reflexivity].
    + destruct (IH (low_byte _VCNL4010_COMMAND)
                   (reg_read bus _VCNL4010_COMMAND d 0%nat)
                   (reg_read bus _VCNL4010_COMMAND d 1%nat)
                   (after_read bus _VCNL4010_COMMAND d)
                   (l ++ [read_transaction bus _VCNL4010_COMMAND d]))
        as (r & c0 & c1 & c2 & d' & rest & E & R & W).
      exists r, c0, c1, c2, d',
        (read_transaction bus _VCNL4010_COMMAND d :: rest).
      rewrite E, <- app_assoc. repeat split; assumption.
Qed.

(** X4.  As long as the bus acknowledges every transaction, a
    measurement on either channel, whatever bytes the device answers and
    however many iterations the loop is given, ends in one of two ways
    only: it returns a value in [0,65535], or it is still polling.  The
    driver's own code (buffer stores, masks, the loop) raises nothing,
    and the scratch buffer keeps its three bytes. *)
Theorem measurement_returns_16_bit_or_polls
    (c : channel) (fuel : nat) b0 b1 b2 (d : D) l :
  returns_16_bit_or_polls (fst (measure bus c fuel (mkWorld [b0; b1; b2] d l)))
  /\ length (_BUFFER (snd (measure bus c fuel (mkWorld [b0; b1; b2] d l))))
     = 3%nat.
Proof.
  rewrite measure_run. cbv zeta.
  match goal with
  | |- context [wait bus c fuel (mkWorld [?a0; ?a1; ?a2] ?d0 ?l0)] =>
      destruct (wait_outcome c fuel a0 a1 a2 d0 l0)
        as (r & c0 & c1 & c2 & d' & rest & E & R & _)
  end.
  rewrite E. split; [exact R | reflexivity].
Qed.

(** X5.  The only register writes of a measurement are the write-back of the
    interrupt status and the trigger, in this order; everything else it
    sends is a read.  No configuration register is ever written. *)
Theorem measurement_writes_status_and_trigger_only
    (c : channel) (fuel : nat) b0 b1 b2 (d : D) l :
  let status := Z.land (reg_value bus _VCNL4010_INTSTAT d) (Z.lnot 0x80) in
  exists sent,
    log (snd (measure bus c fuel (mkWorld [b0; b1; b2] d l))) = l ++ sent
    /\ filter is_write sent
       = [Write [x8e; low_byte status]; Write [x80; low_byte (trigger_bit c)]].
Proof.
  intros status. rewrite measure_run. cbv zeta.
  match goal with
  | |- context [wait bus c fuel (mkWorld [?a0; ?a1; ?a2] ?d0 ?l0)] =>
      destruct (wait_outcome c fuel a0 a1 a2 d0 l0)
        as (r & c0 & c1 & c2 & d' & rest & E & _ & W)
  end.
  rewrite E. cbn [snd log]. rewrite <- app_assoc.
  eexists. split; [reflexivity|].
  cbn [app filter read_transaction write_transaction is_write].
  rewrite W. reflexivity.
Qed.

(** X6.  The loop has no timeout.  If none of the first [fuel] polls sees the
    ready bit, then after [fuel] iterations the call has not returned: it
    has sent the three opening transactions and exactly [fuel] polls, and
    has not read the result register. *)
Theorem measurement_blocks_while_not_ready
    (c : channel) (fuel : nat) b0 b1 b2 (d : D) l :
  never_ready bus c fuel (triggered bus c d) = true ->
  let status := Z.land (reg_value bus _VCNL4010_INTSTAT d) (Z.lnot 0x80) in
  let r := measure bus c fuel (mkWorld [b0; b1; b2] d l) in
  fst r = OutOfFuel
  /\ device (snd r) = after_polls bus fuel (triggered bus c d)
  /\ log (snd r) =
     l ++ [WriteThenRead [x8e]
             [reg_read bus _VCNL4010_INTSTAT d 0%nat;
              reg_read bus _VCNL4010_INTSTAT d 1%nat];
           Write [x8e; low_byte status];
           Write [x80; low_byte (trigger_bit c)]]
       ++ poll_log bus fuel (triggered bus c d).
Proof.
  intros Hnever status r. unfold r. rewrite measure_run. cbv zeta.
  match goal with
  | |- context [wait bus c fuel (mkWorld [?a0; ?a1; ?a2] ?d0 ?l0)] =>
      destruct (wait_never_ready bus c fuel a0 a1 a2 d0 l0 Hnever) as [buf E]
  end.
  rewrite E. cbn [fst snd device log]. rewrite <- app_assoc.
  repeat split.
Qed.

End MeasurementProperties.

(** A register file whose command register never shows a ready bit. *)
Lemma measurement_blocks_while_not_ready_witness :
  let w := boot (mock [] []) in
  never_ready regfile_bus Proximity 4 (triggered regfile_bus Proximity (mock [] []))
  = true
  /\ fst (measure regfile_bus Proximity 4 w) = OutOfFuel
  /\ log (snd (measure regfile_bus Proximity 4 w)) =
     [WriteThenRead [x8e] [x00; x00];
      Write [x8e; x00];
      Write [x80; x08];
      WriteThenRead [x80] [x08; x00];
      WriteThenRead [x80] [x08; x00];
      WriteThenRead [x80] [x08; x00];
      WriteThenRead [x80] [x08; x00]].
Proof.
  intros w.
  assert (H : never_ready regfile_bus Proximity 4
                (triggered regfile_bus Proximity (mock [] [])) = true)
    by reflexivity.
  destruct (measurement_blocks_while_not_ready regfile_bus Proximity 4
              x00 x00 x00 (mock [] []) [] H) as (R & _ & L).
  split; [exact H|]. split; [exact R|].
  unfold w, boot. rewrite L. reflexivity.
Defined.


(** ** Further properties of the configuration accessors *)

Lemma land_lnot_18_of_byte (x : Z) :
  Z.land (Z.land x 0xFF) (Z.lnot 0x18) = Z.land x 0xE7.
Proof. now rewrite <- Z.land_assoc. Qed.

(** Writing frequency [v'] over a byte that came from writing frequency
    [v] gives what writing [v'] to the original byte gives. *)
Lemma new_timing_overwrites (t v v' : Z) :
  0 <= t <= 255 -> 0 <= v <= 3 ->
  new_timing (Z.land (new_timing t v) 0xFF) v' = new_timing t v'.
Proof.
  intros Ht Hv. unfold new_timing at 1 3. f_equal.
  rewrite land_lnot_18_of_byte, new_timing_in_range by assumption.
  pose proof (new_timing_bits t v Ht Hv) as (_ & _ & Hk). cbv zeta in Hk.
  rewrite Hk. rewrite <- (land_255_id t Ht) at 2.
  now rewrite land_lnot_18_of_byte.
Qed.

Section AccessorProperties.

Context {D : Type}.
Variable bus : Bus D.

Lemma samplerate_run b0 b1 b2 (d : D) l :
  samplerate bus (mkWorld [b0; b1; b2] d l) =
  (Ok (reg_value bus _VCNL4010_PROXRATE d),
   mkWorld [x82; reg_read bus _VCNL4010_PROXRATE d 0%nat;
            reg_read bus _VCNL4010_PROXRATE d 1%nat]
           (after_read bus _VCNL4010_PROXRATE d)
           (l ++ [read_transaction bus _VCNL4010_PROXRATE d])).
Proof. unfold samplerate. now rewrite read_u8_run. Qed.

Lemma frequency_run b0 b1 b2 (d : D) l :
  frequency bus (mkWorld [b0; b1; b2] d l) =
  (Ok (Z.land (Z.shiftr (reg_value bus _VCNL4010_MODTIMING d) 3) 0x03),
   mkWorld [x8f; reg_read bus _VCNL4010_MODTIMING d 0%nat;
            reg_read bus _VCNL4010_MODTIMING d 1%nat]
           (after_read bus _VCNL4010_MODTIMING d)
           (l ++ [read_transaction bus _VCNL4010_MODTIMING d])).
Proof. unfold frequency, bind. now rewrite read_u8_run. Qed.

Lemma init_run_ok b0 b1 b2 (d : D) l :
  Z.land (reg_value bus _VCNL4010_PRODUCTID d) 0xF0 = 0x20 ->
  let d3 := after_write bus _VCNL4010_PROXRATE 0
              (after_write bus _VCNL4010_IRLED 20
                 (after_read bus _VCNL4010_PRODUCTID d)) in
  let timing := reg_value bus _VCNL4010_MODTIMING d3 in
  __init__ bus (mkWorld [b0; b1; b2] d l) =
  (Ok tt,
   mkWorld [x89; x08; reg_read bus _VCNL4010_MODTIMING d3 1%nat]
           (after_write bus _VCNL4010_INTCONTROL 0x08
              (after_write bus _VCNL4010_MODTIMING (new_timing timing 0)
                 (after_read bus _VCNL4010_MODTIMING d3)))
           (l ++ [read_transaction bus _VCNL4010_PRODUCTID d;
                  Write [x83; x14];
                  Write [x82; x00];
                  read_transaction bus _VCNL4010_MODTIMING d3;
                  Write [x8f; low_byte (new_timing timing 0)];
                  Write [x89; x08]])).
Proof.
  intros Hid d3 timing.
  unfold __init__, bind at 1. rewrite read_u8_run, Hid.
  unfold bind at 1. cbn [Z.eqb Pos.eqb negb]. unfold ret, bind at 1.
  rewrite set_led_current_ok by lia.
  unfold SAMPLERATE_1_95, FREQUENCY_390K625.
  unfold bind at 1. rewrite set_samplerate_ok by lia.
  unfold bind. rewrite set_frequency_ok by lia. cbv zeta.
  rewrite write_u8_run. rewrite <- !app_assoc. reflexivity.
Qed.

(** X8.  On a bus that acknowledges every transaction, each
    range-checked setter does its register access exactly for the values
    of its range, both ends included: [led_current] and [samplerate] send
    one write of the value to 0x83, resp. 0x82, [frequency] sends the read
    and the write-back of 0x8F.  For every other value the outcome is
    [AssertionError] and the world is untouched. *)
Theorem setters_accept_exactly_their_range
    (s : setting) (v : Z) b0 b1 b2 (d : D) l :
  apply_setting bus s v (mkWorld [b0; b1; b2] d l) =
  if (0 <=? v) && (v <=? setting_max s)
  then
    match s with
    | LedCurrent =>
        (Ok tt,
         mkWorld [x83; low_byte v; b2] (after_write bus _VCNL4010_IRLED v d)
                 (l ++ [Write [x83; low_byte v]]))
    | Samplerate =>
        (Ok tt,
         mkWorld [x82; low_byte v; b2]
                 (after_write bus _VCNL4010_PROXRATE v d)
                 (l ++ [Write [x82; low_byte v]]))
    | Frequency =>
        let t := reg_value bus _VCNL4010_MODTIMING d in
        (Ok tt,
         mkWorld [x8f; low_byte (new_timing t v);
                  reg_read bus _VCNL4010_MODTIMING d 1%nat]
                 (after_write bus _VCNL4010_MODTIMING (new_timing t v)
                    (after_read bus _VCNL4010_MODTIMING d))
                 (l ++ [WriteThenRead [x8f]
                          [reg_read bus _VCNL4010_MODTIMING d 0%nat;
                           reg_read bus _VCNL4010_MODTIMING d 1%nat];
                        Write [x8f; low_byte (new_timing t v)]]))
    end
  else (Raise AssertionError, mkWorld [b0; b1; b2] d l).
Proof.
  destruct s; cbn [apply_setting setting_max];
    [apply set_led_current_run | apply set_samplerate_run
     | apply set_frequency_run].
Qed.

(** X9.  For every [v] in [0,7], on a device that echoes the write to
    the sample-rate register, setting [samplerate] to [v] and reading it
    back returns [v]: one write of [v] to 0x82, then one read of 0x82
    whose first byte is the value returned. *)
Theorem samplerate_round_trip (v : Z) b0 b1 b2 (d : D) l :
  0 <= v <= 7 ->
  echoes bus _VCNL4010_PROXRATE v d ->
  let stored := after_write bus _VCNL4010_PROXRATE v d in
  (set_samplerate bus v ;; samplerate bus)%driver
    (mkWorld [b0; b1; b2] d l) =
  (Ok v,
   mkWorld [x82; low_byte v; reg_read bus _VCNL4010_PROXRATE stored 1%nat]
           (after_read bus _VCNL4010_PROXRATE stored)
           (l ++ [Write [x82; low_byte v];
                  WriteThenRead [x82]
                    [low_byte v;
                     reg_read bus _VCNL4010_PROXRATE stored 1%nat]]))
  /\ reg_value bus _VCNL4010_PROXRATE stored = v.
Proof.
  intros Hv Hecho stored.
  assert (E : reg_value bus _VCNL4010_PROXRATE stored = v).
  { unfold reg_value, stored. unfold echoes in Hecho.
    rewrite Hecho, int_of_low_byte. apply land_255_id. lia. }
  split; [|exact E].
  unfold bind. rewrite set_samplerate_ok by assumption.
  rewrite samplerate_run. fold stored. rewrite E.
  unfold read_transaction. unfold echoes in Hecho. fold stored in Hecho.
  rewrite Hecho, <- app_assoc. reflexivity.
Qed.

(** X10.  For every [v] in [0,3], on a device that echoes the write to
    the timing register, setting [frequency] to [v] and reading it back
    returns [v], whatever the other bits of the register are: a read of
    0x8F, the write-back of [(t & ~0x18) | (v << 3)], then a second read
    of 0x8F from whose first byte bits 3-4 are taken. *)
Theorem frequency_round_trip (v : Z) b0 b1 b2 (d : D) l :
  0 <= v <= 3 ->
  let t := reg_value bus _VCNL4010_MODTIMING d in
  let written := Z.lor (Z.land t (Z.lnot 0x18)) (Z.shiftl v 3) in
  let d1 := after_read bus _VCNL4010_MODTIMING d in
  let d2 := after_write bus _VCNL4010_MODTIMING written d1 in
  echoes bus _VCNL4010_MODTIMING written d1 ->
  (set_frequency bus v ;; frequency bus)%driver (mkWorld [b0; b1; b2] d l) =
  (Ok v,
   mkWorld [x8f; low_byte written; reg_read bus _VCNL4010_MODTIMING d2 1%nat]
           (after_read bus _VCNL4010_MODTIMING d2)
           (l ++ [WriteThenRead [x8f]
                    [reg_read bus _VCNL4010_MODTIMING d 0%nat;
                     reg_read bus _VCNL4010_MODTIMING d 1%nat];
                  Write [x8f; low_byte written];
                  WriteThenRead [x8f]
                    [low_byte written;
                     reg_read bus _VCNL4010_MODTIMING d2 1%nat]]))
  /\ Z.land (Z.shiftr (reg_value bus _VCNL4010_MODTIMING d2) 3) 0x03 = v.
Proof.
  intros Hv t written d1 d2 Hecho.
  pose proof (new_timing_bits t v (int_of_byte_range _) Hv) as (Hb & H34 & _).
  cbv zeta in Hb, H34. fold written in Hb, H34.
  assert (E : reg_value bus _VCNL4010_MODTIMING d2 = written).
  { unfold reg_value, d2. unfold echoes in Hecho.
    now rewrite Hecho, int_of_low_byte. }
  split; [|now rewrite E].
  unfold bind. rewrite set_frequency_ok by assumption. cbv zeta.
  fold t. rewrite (new_timing_in_range t v Hv). fold written. fold d1. fold d2.
  rewrite frequency_run, E, H34.
  unfold read_transaction. unfold echoes in Hecho. fold d2 in Hecho.
  rewrite Hecho, <- app_assoc. reflexivity.
Qed.

(** X11.  Setting the frequency twice: on a device that echoes the first
    write, the second write stores what a single [frequency = v'] would
    have stored in the original register byte.  The bits outside 3-4
    survive both read-modify-write cycles. *)
Theorem frequency_last_write_wins (v v' : Z) b0 b1 b2 (d : D) l :
  0 <= v <= 3 ->
  0 <= v' <= 3 ->
  let t := reg_value bus _VCNL4010_MODTIMING d in
  let d1 := after_read bus _VCNL4010_MODTIMING d in
  let d2 := after_write bus _VCNL4010_MODTIMING (new_timing t v) d1 in
  echoes bus _VCNL4010_MODTIMING (new_timing t v) d1 ->
  let r := (set_frequency bus v ;; set_frequency bus v')%driver
             (mkWorld [b0; b1; b2] d l) in
  fst r = Ok tt
  /\ log (snd r) =
     l ++ [read_transaction bus _VCNL4010_MODTIMING d;
           Write [x8f; low_byte (new_timing t v)];
           read_transaction bus _VCNL4010_MODTIMING d2;
           Write [x8f; low_byte (Z.lor (Z.land t (Z.lnot 0x18))
                                        (Z.shiftl v' 3))]].
Proof.
  intros Hv Hv' t d1 d2 Hecho r. unfold r, bind.
  rewrite set_frequency_ok by assumption. cbv zeta.
  rewrite set_frequency_ok by assumption. cbv zeta.
  fold t. fold d1. fold d2. cbn [fst snd log].
  split; [reflexivity|].
  assert (E : reg_value bus _VCNL4010_MODTIMING d2
              = Z.land (new_timing t v) 0xFF).
  { unfold reg_value, d2. unfold echoes in Hecho.
    now rewrite Hecho, int_of_low_byte. }
  rewrite E, new_timing_overwrites
    by (assumption || apply int_of_byte_range).
  rewrite (new_timing_in_range t v') by assumption.
  rewrite <- app_assoc. reflexivity.
Qed.

(** X12.  The milliamp accessor quantizes downwards.  For
    [0 <= x <= 209], on a device that echoes the write to the LED current
    register, setting [led_current_mA = x] writes [x // 10] to 0x83, and
    reading [led_current_mA] reads 0x83 back and gives [x - x mod 10],
    that is [x] rounded down to a multiple of ten. *)
Theorem led_current_mA_rounds_down (x : Z) b0 b1 b2 (d : D) l :
  0 <= x <= 209 ->
  echoes bus _VCNL4010_IRLED (x / 10) d ->
  let stored := after_write bus _VCNL4010_IRLED (x / 10) d in
  (set_led_current_mA bus x ;; led_current_mA bus)%driver
    (mkWorld [b0; b1; b2] d l) =
  (Ok (x - x mod 10),
   mkWorld [x83; low_byte (x / 10);
            reg_read bus _VCNL4010_IRLED stored 1%nat]
           (after_read bus _VCNL4010_IRLED stored)
           (l ++ [Write [x83; low_byte (x / 10)];
                  WriteThenRead [x83]
                    [low_byte (x / 10);
                     reg_read bus _VCNL4010_IRLED stored 1%nat]]))
  /\ x - 9 <= x - x mod 10 <= x.
Proof.
  intros Hx Hecho stored.
  assert (Hq : 0 <= x / 10 <= 20).
  { split; [apply Z.div_pos; lia|].
    pose proof (Z.div_lt_upper_bound x 10 21). lia. }
  split.
  - unfold set_led_current_mA, bind.
    rewrite set_led_current_ok by assumption.
    rewrite led_current_mA_run, led_current_run.
    rewrite (echoed_value_masked bus (x / 10) d Hq Hecho).
    cbn [snd]. unfold read_transaction, stored. unfold echoes in Hecho.
    rewrite Hecho, <- app_assoc.
    replace (x / 10 * 10) with (x - x mod 10)
      by (pose proof (Z.div_mod x 10 ltac:(lia)); lia).
    reflexivity.
  - pose proof (Z.mod_pos_bound x 10 ltac:(lia)). lia.
Qed.

(** X13.  The configuration getters are read-only.  On a bus that
    acknowledges the transaction, each of them sends exactly one
    transaction, a two-byte read of its own register (0x83 for
    [led_current] and [led_current_mA], 0x82 for [samplerate], 0x8F for
    [frequency]), writes nothing, and computes its result from the first
    byte read. *)
Theorem getters_only_read b0 b1 b2 (d : D) l :
  let w := mkWorld [b0; b1; b2] d l in
  let after_read_of (address : Z) :=
    mkWorld [low_byte address; reg_read bus address d 0%nat;
             reg_read bus address d 1%nat]
            (after_read bus address d)
            (l ++ [WriteThenRead [low_byte address]
                     [reg_read bus address d 0%nat;
                      reg_read bus address d 1%nat]]) in
  led_current bus w =
    (Ok (Z.land (int_of_byte (reg_read bus 0x83 d 0%nat)) 0x3F),
     after_read_of 0x83)
  /\ led_current_mA bus w =
     (Ok (Z.land (int_of_byte (reg_read bus 0x83 d 0%nat)) 0x3F * 10),
      after_read_of 0x83)
  /\ samplerate bus w =
     (Ok (int_of_byte (reg_read bus 0x82 d 0%nat)), after_read_of 0x82)
  /\ frequency bus w =
     (Ok (Z.land (Z.shiftr (int_of_byte (reg_read bus 0x8F d 0%nat)) 3) 0x03),
      after_read_of 0x8F)
  /\ low_byte 0x83 = x83 /\ low_byte 0x82 = x82 /\ low_byte 0x8F = x8f.
Proof.
  intros w after_read_of. unfold w, after_read_of.
  rewrite led_current_mA_run, led_current_run, samplerate_run, frequency_run.
  repeat split.
Qed.

End AccessorProperties.

Lemma samplerate_round_trip_witness :
  let r := (set_samplerate regfile_bus 7 ;; samplerate regfile_bus)%driver
             (boot (mock [] [])) in
  0 <= 7 <= 7
  /\ echoes regfile_bus _VCNL4010_PROXRATE 7 (mock [] [])
  /\ fst r = Ok SAMPLERATE_250
  /\ log (snd r) = [Write [x82; x07]; WriteThenRead [x82] [x07; x00]].
Proof.
  intros r.
  assert (H : 0 <= 7 <= 7) by lia.
  assert (E : echoes regfile_bus _VCNL4010_PROXRATE 7 (mock [] []))
    by reflexivity.
  destruct (samplerate_round_trip regfile_bus 7 x00 x00 x00 (mock [] []) []
              H E) as [R _].
  split; [exact H|]. split; [exact E|].
  unfold r, boot. rewrite R. split; reflexivity.
Defined.

Lemma frequency_round_trip_witness :
  let d := mock [(0x8F, xe7)] [] in
  let r := (set_frequency regfile_bus 3 ;; frequency regfile_bus)%driver
             (boot d) in
  0 <= 3 <= 3
  /\ echoes regfile_bus _VCNL4010_MODTIMING
       (Z.lor (Z.land (reg_value regfile_bus _VCNL4010_MODTIMING d)
                      (Z.lnot 0x18)) (Z.shiftl 3 3))
       (after_read regfile_bus _VCNL4010_MODTIMING d)
  /\ fst r = Ok FREQUENCY_3M125
  /\ log (snd r) =
     [WriteThenRead [x8f] [xe7; x00]; Write [x8f; xff];
      WriteThenRead [x8f] [xff; x00]].
Proof.
  intros d r.
  assert (H : 0 <= 3 <= 3) by lia.
  assert (E : echoes regfile_bus _VCNL4010_MODTIMING
                (Z.lor (Z.land (reg_value regfile_bus _VCNL4010_MODTIMING d)
                               (Z.lnot 0x18)) (Z.shiftl 3 3))
                (after_read regfile_bus _VCNL4010_MODTIMING d))
    by reflexivity.
  destruct (frequency_round_trip regfile_bus 3 x00 x00 x00 d [] H E)
    as [R _].
  split; [exact H|]. split; [exact E|].
  unfold r, boot. rewrite R. split; reflexivity.
Defined.

(** Timing byte 0b10100101: frequency 3 and then 1 leaves 0b10101101. *)
Lemma frequency_last_write_wins_witness :
  let d := mock [(0x8F, xa5)] [] in
  let r := (set_frequency regfile_bus 3 ;; set_frequency regfile_bus 1)%driver
             (boot d) in
  (0 <= 3 <= 3) /\ (0 <= 1 <= 3)
  /\ fst r = Ok tt
  /\ log (snd r) =
     [WriteThenRead [x8f] [xa5; x00]; Write [x8f; xbd];
      WriteThenRead [x8f] [xbd; x00]; Write [x8f; xad]].
Proof.
  intros d r.
  assert (H : 0 <= 3 <= 3) by lia.
  assert (H' : 0 <= 1 <= 3) by lia.
  destruct (frequency_last_write_wins regfile_bus 3 1 x00 x00 x00 d []
              H H' eq_refl) as [R L].
  split; [exact H|]. split; [exact H'|]. split; [exact R|].
  unfold r, boot. rewrite L. reflexivity.
Defined.

Lemma led_current_mA_rounds_down_witness :
  let r := (set_led_current_mA regfile_bus 199
            ;; led_current_mA regfile_bus)%driver (boot (mock [] [])) in
  0 <= 199 <= 209
  /\ echoes regfile_bus _VCNL4010_IRLED (199 / 10) (mock [] [])
  /\ fst r = Ok 190
  /\ log (snd r) = [Write [x83; x13]; WriteThenRead [x83] [x13; x00]].
Proof.
  intros r.
  assert (H : 0 <= 199 <= 209) by lia.
  assert (E : echoes regfile_bus _VCNL4010_IRLED (199 / 10) (mock [] []))
    by reflexivity.
  destruct (led_current_mA_rounds_down regfile_bus 199 x00 x00 x00
              (mock [] []) [] H E) as [R _].
  split; [exact H|]. split; [exact E|].
  unfold r, boot. rewrite R. split; reflexivity.
Defined.

(** ** The driver on the mock register file *)

Lemma regfile_reg_value_0x83 (d : regfile) :
  reg_value regfile_bus _VCNL4010_IRLED d = int_of_byte (regs d 0x83).
Proof. reflexivity. Qed.

Lemma regfile_reg_value_0x82 (d : regfile) :
  reg_value regfile_bus _VCNL4010_PROXRATE d = int_of_byte (regs d 0x82).
Proof. reflexivity. Qed.

Lemma regfile_reg_value_0x8F (d : regfile) :
  reg_value regfile_bus _VCNL4010_MODTIMING d = int_of_byte (regs d 0x8F).
Proof. reflexivity. Qed.

Lemma regfile_reg_value_0x81 (d : regfile) :
  reg_value regfile_bus _VCNL4010_PRODUCTID d = int_of_byte (regs d 0x81).
Proof. reflexivity. Qed.

(** X14.  Construction establishes the documented defaults.  On every register
    file whose product-ID byte has upper nibble 2, whatever else the
    registers hold, construction succeeds and afterwards [led_current]
    reads 20 ([led_current_mA] 200), [samplerate] reads 0 and [frequency]
    reads 0; register 0x89 holds 0x08, and the bits of the timing register
    outside 3-4 are the ones it had before. *)
Theorem construction_establishes_defaults (r : Z -> byte) (script : list byte) :
  Z.land (int_of_byte (r 0x81)) 0xF0 = 0x20 ->
  let built := __init__ regfile_bus (boot (mkRegfile r script)) in
  fst built = Ok tt
  /\ fst (led_current regfile_bus (snd built)) = Ok 20
  /\ fst (led_current_mA regfile_bus (snd built)) = Ok 200
  /\ fst (samplerate regfile_bus (snd built)) = Ok SAMPLERATE_1_95
  /\ fst (frequency regfile_bus (snd built)) = Ok FREQUENCY_390K625
  /\ regs (device (snd built)) 0x89 = x08
  /\ Z.land (int_of_byte (regs (device (snd built)) 0x8F)) 0xE7
     = Z.land (int_of_byte (r 0x8F)) 0xE7.
Proof.
  intros Hid built. unfold built, boot.
  rewrite (init_run_ok regfile_bus) by (rewrite regfile_reg_value_0x81; exact Hid).
  cbv zeta. cbn [fst snd device].
  rewrite led_current_mA_run, led_current_run, samplerate_run, frequency_run.
  cbn [fst]. rewrite regfile_reg_value_0x83, regfile_reg_value_0x82,
    !regfile_reg_value_0x8F.
  pose proof (new_timing_bits (int_of_byte (r 0x8F)) 0
                (int_of_byte_range _) ltac:(lia)) as (Hb & H34 & Hk).
  cbv zeta in Hb, H34, Hk.
  split; [reflexivity|]. split; [reflexivity|]. split; [reflexivity|].
  split; [reflexivity|].
  split; [|split; [reflexivity|]].
  - change (regs _ 0x8F) with (low_byte (new_timing (int_of_byte (r 0x8F)) 0)).
    rewrite int_of_low_byte, new_timing_in_range by lia.
    now rewrite Hb, H34.
  - change (regs _ 0x8F) with (low_byte (new_timing (int_of_byte (r 0x8F)) 0)).
    rewrite int_of_low_byte, new_timing_in_range by lia.
    now rewrite Hb, Hk.
Qed.

Lemma construction_establishes_defaults_witness :
  let d := mock [(0x81, x21); (0x82, x07); (0x83, x3f); (0x8F, xff)] [] in
  Z.land (int_of_byte (regs d 0x81)) 0xF0 = 0x20
  /\ fst (__init__ regfile_bus (boot d)) = Ok tt
  /\ fst (led_current_mA regfile_bus (snd (__init__ regfile_bus (boot d))))
     = Ok 200
  /\ regs (device (snd (__init__ regfile_bus (boot d)))) 0x8F = xe7.
Proof.
  intros d.
  assert (H : Z.land (int_of_byte (regs d 0x81)) 0xF0 = 0x20) by reflexivity.
  destruct (construction_establishes_defaults (regs d) [] H)
    as (R & _ & M & _).
  split; [exact H|]. split; [exact R|]. split; [exact M|reflexivity].
Defined.

(** ** The scratch buffer *)

Section ScratchBuffer.

Context {D : Type}.
Variable bus : Bus D.

Lemma measure_buffer (c : channel) (fuel : nat) b0 b1 b2 (d : D) l :
  length (_BUFFER (snd (measure bus c fuel (mkWorld [b0; b1; b2] d l))))
  = 3%nat.
Proof.
  rewrite measure_run. cbv zeta.
  match goal with
  | |- context [wait bus c fuel (mkWorld [?a0; ?a1; ?a2] ?d0 ?l0)] =>
      destruct (wait_outcome bus c fuel a0 a1 a2 d0 l0)
        as (r & c0 & c1 & c2 & d' & rest & E & _)
  end.
  now rewrite E.
Qed.

(** X15.  Every public method, whatever its outcome (a value, a failed
    assertion, a failed identity check, a loop still polling), leaves the
    class-level scratch buffer with its three bytes.  Calls can therefore
    be chained in any order without ever indexing outside the buffer. *)
Theorem scratch_buffer_keeps_three_bytes
    (s : setting) (c : channel) (v x : Z) (fuel : nat) b0 b1 b2 (d : D) l :
  let w := mkWorld [b0; b1; b2] d l in
  let width {A : Type} (r : result A * @world D) := length (_BUFFER (snd r)) in
  width (__init__ bus w) = 3%nat
  /\ width (apply_setting bus s v w) = 3%nat
  /\ width (set_led_current_mA bus x w) = 3%nat
  /\ width (led_current bus w) = 3%nat
  /\ width (led_current_mA bus w) = 3%nat
  /\ width (samplerate bus w) = 3%nat
  /\ width (frequency bus w) = 3%nat
  /\ width (measure bus c fuel w) = 3%nat
  /\ width (ambient_lux bus fuel w) = 3%nat.
Proof.
  intros w width. unfold width, w.
  split; [|split; [|split; [|split; [|split; [|split; [|split; [|split]]]]]]].
  - destruct (Z.eq_dec (Z.land (reg_value bus _VCNL4010_PRODUCTID d) 0xF0)
                       0x20) as [Hid|Hid].
    + now rewrite init_run_ok.
    + unfold __init__, bind at 1. rewrite read_u8_run. unfold bind at 1.
      apply Z.eqb_neq in Hid. rewrite Hid. reflexivity.
  - destruct s; cbn [apply_setting];
      [rewrite set_led_current_run | rewrite set_samplerate_run
       | rewrite set_frequency_run; cbv zeta];
      now destruct ((0 <=? v) && _).
  - unfold set_led_current_mA. rewrite set_led_current_run.
    now destruct ((0 <=? x / 10) && _).
  - now rewrite led_current_run.
  - now rewrite led_current_mA_run, led_current_run.
  - now rewrite samplerate_run.
  - now rewrite frequency_run.
  - apply measure_buffer.
  - unfold ambient_lux, bind.
    pose proof (measure_buffer Ambient fuel b0 b1 b2 d l) as H.
    cbn [measure] in H.
    destruct (ambient bus fuel (mkWorld [b0; b1; b2] d l)) as [[raw|e|] w'];
      exact H.
Qed.

End ScratchBuffer.

(** ** Further properties of the lux value *)

(** For every 16-bit raw value the lux value lies between 0 and 16383.75
    and dividing it by the scale factor gives the raw value back. *)
Lemma lux_bounds_16_bit :
  all_range 16 0
    (fun raw =>
       PrimFloat.leb 0 (lux_of_raw raw)
       && PrimFloat.leb (lux_of_raw raw) 16383.75
       && PrimFloat.eqb (PrimFloat.div (lux_of_raw raw)
                                       _VCNL4010_AMBIENT_LUX_SCALE)
                        (float_of_int raw)) = true.
Proof. vm_compute. reflexivity. Qed.

Section LuxProperties.

Context {D : Type}.
Variable bus : Bus D.

Lemma ambient_result_range (fuel : nat) b0 b1 b2 (d : D) l raw w' :
  ambient bus fuel (mkWorld [b0; b1; b2] d l) = (Ok raw, w') ->
  0 <= raw <= 65535.
Proof.
  intros H.
  change (ambient bus fuel) with (measure bus Ambient fuel) in H.
  rewrite measure_run in H. cbv zeta in H.
  eapply wait_result_range, H.
Qed.

(** X16.  Whenever [ambient_lux] returns, it returns the lux value of a raw
    measurement that [ambient] delivers in the same final state; the
    value is a float between 0 and 16383.75, and no information is lost:
    dividing it by 0.25 gives the raw measurement back. *)
Theorem ambient_lux_bounded_and_invertible
    (fuel : nat) b0 b1 b2 (d : D) l (lux : float) (w' : @world D) :
  ambient_lux bus fuel (mkWorld [b0; b1; b2] d l) = (Ok lux, w') ->
  exists raw,
    ambient bus fuel (mkWorld [b0; b1; b2] d l) = (Ok raw, w')
    /\ lux = lux_of_raw raw
    /\ PrimFloat.leb 0 lux = true
    /\ PrimFloat.leb lux 16383.75 = true
    /\ PrimFloat.eqb (PrimFloat.div lux _VCNL4010_AMBIENT_LUX_SCALE)
                     (float_of_int raw) = true.
Proof.
  intros H. unfold ambient_lux, bind in H.
  destruct (ambient bus fuel (mkWorld [b0; b1; b2] d l))
    as [[raw|e|] w0] eqn:E; try discriminate H.
  unfold ret in H. inversion H; subst w0. clear H.
  exists raw. split; [reflexivity|]. split; [reflexivity|].
  pose proof (all_range_spec _ 16 0 raw lux_bounds_16_bit) as B.
  cbv beta in B.
  assert (R : 0 <= raw < 0 + 2 ^ Z.of_nat 16).
  { pose proof (ambient_result_range fuel b0 b1 b2 d l raw w' E).
    change (2 ^ Z.of_nat 16) with 65536. lia. }
  specialize (B R).
  apply andb_true_iff in B as [B B3]. apply andb_true_iff in B as [B1 B2].
  fold (lux_of_raw raw). repeat split; assumption.
Qed.

End LuxProperties.

Lemma ambient_lux_bounded_and_invertible_witness :
  let w := boot (mock [(0x85, x00); (0x86, x2a)] [x50]) in
  fst (ambient_lux regfile_bus 3 w) = Ok 10.5%float
  /\ exists raw,
       fst (ambient regfile_bus 3 w) = Ok raw
       /\ PrimFloat.eqb (PrimFloat.div 10.5 _VCNL4010_AMBIENT_LUX_SCALE)
                        (float_of_int raw) = true.
Proof.
  intros w.
  assert (H : ambient_lux regfile_bus 3 w
              = (Ok 10.5%float, snd (ambient_lux regfile_bus 3 w))).
  { rewrite (surjective_pairing (ambient_lux regfile_bus 3 w)) at 1.
    f_equal. }
  destruct (ambient_lux_bounded_and_invertible regfile_bus 3 x00 x00 x00
              (mock [(0x85, x00); (0x86, x2a)] [x50]) [] _ _ H)
    as (raw & E & _ & _ & _ & I).
  split; [reflexivity|]. exists raw. split; [|exact I].
  unfold w, boot. now rewrite E.
Defined.

(** ** Setters on the mock register file *)

Lemma regfile_write_other (a v other : Z) (d : regfile) :
  0 <= a <= 255 ->
  other <> a ->
  regs (after_write regfile_bus a v d) other = regs d other.
Proof.
  intros Ha Hne. unfold after_write. cbn [bus_write regfile_bus regfile_write regs].
  rewrite int_of_low_byte, land_255_id by assumption.
  apply Z.eqb_neq in Hne. now rewrite Hne.
Qed.

Lemma regfile_read_keeps_regs (a : Z) (d : regfile) :
  regs (after_read regfile_bus a d) = regs d.
Proof.
  unfold after_read. cbn [bus_write_then_readinto regfile_bus regfile_read].
  destruct (int_of_byte (low_byte a) =? _VCNL4010_COMMAND);
    [destruct (command_script d)|]; reflexivity.
Qed.

(** X17.  A configuration setter changes no register but its own.  On every
    register file and for every value, accepted or not, each register
    other than the setter's holds after the call what it held before; the
    same is true of the milliamp setter and the LED current register. *)
Theorem setters_change_only_their_register
    (s : setting) (v other : Z) (r : Z -> byte) (script : list byte) :
  other <> setting_register s ->
  let d := mkRegfile r script in
  regs (device (snd (apply_setting regfile_bus s v (boot d)))) other = r other
  /\ match s with
     | LedCurrent =>
         regs (device (snd (set_led_current_mA regfile_bus v (boot d)))) other
         = r other
     | _ => True
     end.
Proof.
  intros Hne d. unfold boot. split.
  - destruct s; cbn [apply_setting setting_register] in *;
      [rewrite set_led_current_run | rewrite set_samplerate_run
       | rewrite set_frequency_run; cbv zeta];
      destruct ((0 <=? v) && _); cbn [snd device]; try reflexivity;
      rewrite regfile_write_other by (assumption || (vm_compute; split; discriminate));
      try rewrite regfile_read_keeps_regs; reflexivity.
  - destruct s; [|exact I|exact I]. cbn [setting_register] in Hne.
    unfold set_led_current_mA. rewrite set_led_current_run.
    destruct ((0 <=? v / 10) && _); cbn [snd device]; try reflexivity.
    now rewrite regfile_write_other
      by (assumption || (vm_compute; split; discriminate)).
Qed.

(** Setting the frequency leaves a prepared LED current untouched. *)
Lemma setters_change_only_their_register_witness :
  let d := mock [(0x83, x0a); (0x8F, xe7)] [] in
  0x83 <> setting_register Frequency
  /\ regs (device (snd (set_frequency regfile_bus 2 (boot d)))) 0x83 = x0a.
Proof.
  intros d.
  assert (H : 0x83 <> setting_register Frequency) by discriminate.
  split; [exact H|].
  exact (proj1 (setters_change_only_their_register Frequency 2 0x83
                  (regs d) [] H)).
Defined.
